(** * Czarina LLM monitor daemon: a shallow embedding of
      [czarina-core/llm-monitor-daemon.py]

    The daemon watches a fleet of tmux windows, asks a classifier what each
    stale worker is doing and forwards the recommended action.  The Python
    code is stateful and may raise; it is embedded here in a small
    state-and-exception monad over an explicit [State].  Everything outside
    the module (the wall clock, [subprocess.run], the classifier call
    together with [json.loads], the events file and the prompt files) is an
    oracle of the environment [Env], indexed by the number of interactions
    made so far, so that the same call may answer differently over time.

    What is abstracted: text rendering.  A logging call is kept as the
    message constructor and the values interpolated into its f-string, a line
    of [llm-decisions.log] as the record of the six values it prints, a line
    of [llm-decisions.jsonl] as the record of the nine entries of the
    dictionary handed to [json.dumps].  File appends are assumed to succeed,
    and only subclasses of [Exception] are raised (no interpreter
    interrupt). *)

From Stdlib Require Import ZArith List Ascii String Bool Lia.
From Stdlib Require Import Floats.PrimFloat Numbers.Cyclic.Int63.Uint63.
Import ListNotations.

Set Warnings "-register-all".

Open Scope string_scope.
Open Scope list_scope.
Open Scope Z_scope.

(* ===================================================================== *)
(** ** Python values, dictionaries, exceptions *)
(* ===================================================================== *)

(** The values [json.loads] can produce (and the ones the module adds). *)
Inductive pyval : Type :=
| PNone
| PBool (b : bool)
| PInt (n : Z)
| PFloat (f : float)
| PStr (s : string)
| PList (l : list pyval)
| PDict (d : list (string * pyval)).

(** A [dict] with string keys, in insertion order. *)
Definition pydict : Type := list (string * pyval).

(** [v == 'lit'] for a string literal. *)
Definition py_eq_str (v : pyval) (lit : string) : bool :=
  match v with
  | PStr s => String.eqb s lit
  | _ => false
  end.

(** [v in [lit1, lit2, ...]] for a list of string literals. *)
Definition py_in_strs (v : pyval) (lits : list string) : bool :=
  existsb (py_eq_str v) lits.

(** [d.get(k)]: [None] when the key is absent. *)
Fixpoint dict_lookup (d : pydict) (k : string) : option pyval :=
  match d with
  | [] => None
  | (k', v) :: d' => if String.eqb k' k then Some v else dict_lookup d' k
  end.

(** [d.get(k)] as a Python value. *)
Definition dict_get (d : pydict) (k : string) : pyval :=
  match dict_lookup d k with
  | Some v => v
  | None => PNone
  end.

(** [d.get(k, default)]. *)
Definition dict_get_default (d : pydict) (k : string) (default : pyval) : pyval :=
  match dict_lookup d k with
  | Some v => v
  | None => default
  end.

(** [d[k] = v]: replaces the value of an existing key in place, appends a
    new key at the end. *)
Fixpoint dict_set (d : pydict) (k : string) (v : pyval) : pydict :=
  match d with
  | [] => [(k, v)]
  | (k', v') :: d' =>
      if String.eqb k' k then (k', v) :: d' else (k', v') :: dict_set d' k v
  end.

(** The exceptions (all subclasses of [Exception]) this module can meet,
    each with what [str(e)] shows. *)
Inductive exn : Type :=
| KeyError (key : string)
| TypeError (msg : string)
| IndexError (msg : string)
| AttributeError (msg : string)
| JSONDecodeError (msg : string) (doc : string)
| TimeoutExpired (msg : string)
| APIError (msg : string)
| OSError (msg : string).

(** [str(e)], as interpolated by [f"{e}"]. *)
Definition exn_str (e : exn) : string :=
  match e with
  | KeyError key => ("'" ++ key ++ "'")%string
  | TypeError msg => msg
  | IndexError msg => msg
  | AttributeError msg => msg
  | JSONDecodeError msg _ => msg
  | TimeoutExpired msg => msg
  | APIError msg => msg
  | OSError msg => msg
  end.

(** Truthiness of an [Optional[str]]: [None] and [''] are false. *)
Definition truthy_str (o : option string) : bool :=
  match o with
  | Some s => negb (String.eqb s "")
  | None => false
  end.

(* ===================================================================== *)
(** ** datetime and timedelta *)
(* ===================================================================== *)

(** A naive [datetime] is kept as its number of microseconds since the
    epoch; the difference of two is a [timedelta], which Python stores
    normalised as days, seconds in [0, 86400) and microseconds in
    [0, 10^6). *)
Definition datetime : Type := Z.

Record timedelta : Type := mk_timedelta {
  days : Z;
  seconds : Z;
  microseconds : Z
}.

Definition us_per_second : Z := 1000000.
Definition seconds_per_day : Z := 86400.
Definition us_per_day : Z := seconds_per_day * us_per_second.

(** [a - b] on datetimes. *)
Definition datetime_sub (a b : datetime) : timedelta :=
  let us := a - b in
  {| days := us / us_per_day;
     seconds := (us mod us_per_day) / us_per_second;
     microseconds := us mod us_per_second |}.

(** [td.total_seconds()], times 10^6 (kept exact). *)
Definition total_microseconds (td : timedelta) : Z :=
  (days td * seconds_per_day + seconds td) * us_per_second + microseconds td.

(* ===================================================================== *)
(** ** Configuration and worker state *)
(* ===================================================================== *)

Record MonitorConfig : Type := mk_config {
  enabled : bool;
  model : string;
  check_interval : Z;
  stale_threshold : Z;
  max_context_lines : Z;
  auto_approve : bool;
  log_all_decisions : bool;
  api_key : option string
}.

(** The dataclass defaults. *)
Definition default_config : MonitorConfig :=
  {| enabled := true;
     model := "claude-3-5-haiku-20241022";
     check_interval := 30;
     stale_threshold := 300;
     max_context_lines := 100;
     auto_approve := true;
     log_all_decisions := true;
     api_key := None |}.

Record WorkerState : Type := mk_worker {
  worker_id : string;
  window_num : Z;
  last_activity : datetime;
  last_analysis : option pydict;
  status : pyval;
  consecutive_stuck_count : Z
}.

(* ===================================================================== *)
(** ** Observable effects *)
(* ===================================================================== *)

Inductive level : Type := DEBUG | INFO | WARNING | ERROR.

(** One constructor per logging call of the module, with the values its
    f-string interpolates. *)
Inductive log_msg : Type :=
| MsgCaptureFailed (window : Z) (e : exn)
| MsgSendKeysFailed (window : Z) (e : exn)
| MsgLLMAnalysis (worker : string) (st act : pyval) (cost : float) (conf : pyval)
| MsgParseFailed (e : exn)
| MsgRawResponse (text : string)
| MsgAnalysisFailed (e : exn)
| MsgNeedsIntervention (worker : string) (reasoning : pyval)
| MsgAutoApproveDisabled (worker : string) (act : pyval)
| MsgExecuting (worker : string) (keys reasoning : pyval)
| MsgActionOk (worker : string)
| MsgActionFailed (worker : string)
| MsgEvent (worker : string) (ev : pyval)
| MsgEventsFailed (e : exn)
| MsgLogUpdate (worker : string)
| MsgNoTerminalOutput (worker : string)
| MsgStuckInARow (worker : string) (count : Z)
| MsgCheckingStale (worker : string).

(** The tmux commands handed to [subprocess.run]. *)
Inductive tmux_cmd : Type :=
| CapturePane (session : string) (window : Z) (lines : Z)
| SendKeys (session : string) (window : Z) (keys : pyval)
| HasSession (session : string).

(** What the classifier is asked about. *)
Record classifier_input : Type := mk_input {
  ci_worker : string;
  ci_terminal : string;
  ci_last_event : option string;
  ci_task : option string
}.

(** The trace of calls leaving the module, oldest first.
    [EvAnalyzeWorker] marks an entry into [LLMMonitorDaemon.analyze_worker]. *)
Inductive event : Type :=
| EvLog (lv : level) (msg : log_msg)
| EvTmux (cmd : tmux_cmd)
| EvClassify (inp : classifier_input)
| EvAnalyzeWorker (worker : string).

(** The [decision] dictionary of [_log_decision], one line of
    [llm-decisions.jsonl]. *)
Record decision : Type := mk_decision {
  d_timestamp : datetime;
  d_worker : string;
  d_status : pyval;
  d_action : pyval;
  d_keys : pyval;
  d_reasoning : pyval;
  d_confidence : pyval;
  d_cost : pyval;
  d_tokens : pyval
}.

(** A line of the human-readable [llm-decisions.log]. *)
Record human_record : Type := mk_human {
  h_timestamp : datetime;
  h_worker : string;
  h_status : pyval;
  h_action : pyval;
  h_confidence : pyval;
  h_reasoning : pyval
}.

(* ===================================================================== *)
(** ** The environment *)
(* ===================================================================== *)

(** Outcome of [subprocess.run(..., timeout=5)]. *)
Inductive proc_outcome : Type :=
| Completed (returncode : Z) (stdout : string)
| ProcRaises (e : exn).

(** Outcome of [client.messages.create] followed by [json.loads] on
    [response.content[0].text]:
    - the call itself raised one of the client library's own errors
      (connection error, time-out, API error);
    - a response came back with no content block;
    - the text is not JSON ([text] is the raw response, [msg] the parser's
      complaint);
    - the text parsed to [v]. *)
Inductive llm_outcome : Type :=
| LLMRaises (msg : string)
| LLMEmpty (input_tokens output_tokens : Z)
| LLMMalformed (input_tokens output_tokens : Z) (text : string) (msg : string)
| LLMParsed (input_tokens output_tokens : Z) (v : pyval).

(** What reading the last line of [events.jsonl] gives. *)
Inductive events_tail : Type :=
| NoEventsFile
| NoEvents
| EventsUnreadable (e : exn)
| LastEvent (v : pyval).

Record Env : Type := mk_env {
  clock : nat -> datetime;
  run_tmux : nat -> tmux_cmd -> proc_outcome;
  classify : nat -> classifier_input -> llm_outcome;
  scan_events : nat -> string -> option string;
  read_events_tail : nat -> events_tail;
  read_prompt : nat -> string -> option string
}.

(* ===================================================================== *)
(** ** The state and the monad *)
(* ===================================================================== *)

Record State : Type := mk_state {
  st_config : MonitorConfig;
  st_session : string;
  st_workers : list (string * WorkerState);
  st_total_requests : Z;
  st_total_cost : float;
  st_decisions_log : list human_record;
  st_json_log : list decision;
  st_trace : list event;
  st_tick : nat
}.

Inductive result (A : Type) : Type :=
| Ret (a : A)
| Raise (e : exn).
Arguments Ret {A} a.
Arguments Raise {A} e.

Definition M (A : Type) : Type := State -> result A * State.

Definition ret {A : Type} (a : A) : M A := fun s => (Ret a, s).

Definition raise {A : Type} (e : exn) : M A := fun s => (Raise e, s).

Definition bind {A B : Type} (m : M A) (k : A -> M B) : M B :=
  fun s =>
    match m s with
    | (Ret a, s') => k a s'
    | (Raise e, s') => (Raise e, s')
    end.

(** [try: m  except Exception as e: h e]. *)
Definition try_except {A : Type} (m : M A) (h : exn -> M A) : M A :=
  fun s =>
    match m s with
    | (Ret a, s') => (Ret a, s')
    | (Raise e, s') => h e s'
    end.

Declare Scope monad_scope.
Delimit Scope monad_scope with monad.
Notation "x <- c ;; k" := (bind c (fun x => k))
  (at level 61, c at next level, right associativity) : monad_scope.
Notation "c ;;; k" := (bind c (fun _ => k))
  (at level 61, right associativity) : monad_scope.
Open Scope monad_scope.

Definition gets {A : Type} (f : State -> A) : M A := fun s => (Ret (f s), s).

Definition modify (f : State -> State) : M unit := fun s => (Ret tt, f s).

Definition set_trace (t : list event) (s : State) : State :=
  mk_state (st_config s) (st_session s) (st_workers s) (st_total_requests s)
           (st_total_cost s) (st_decisions_log s) (st_json_log s) t (st_tick s).

Definition set_tick (n : nat) (s : State) : State :=
  mk_state (st_config s) (st_session s) (st_workers s) (st_total_requests s)
           (st_total_cost s) (st_decisions_log s) (st_json_log s) (st_trace s) n.

Definition set_workers (ws : list (string * WorkerState)) (s : State) : State :=
  mk_state (st_config s) (st_session s) ws (st_total_requests s)
           (st_total_cost s) (st_decisions_log s) (st_json_log s) (st_trace s)
           (st_tick s).

Definition set_counters (n : Z) (c : float) (s : State) : State :=
  mk_state (st_config s) (st_session s) (st_workers s) n c
           (st_decisions_log s) (st_json_log s) (st_trace s) (st_tick s).

Definition set_logs (h : list human_record) (j : list decision) (s : State) : State :=
  mk_state (st_config s) (st_session s) (st_workers s) (st_total_requests s)
           (st_total_cost s) h j (st_trace s) (st_tick s).

(** Record a call in the trace. *)
Definition emit (ev : event) : M unit :=
  modify (fun s => set_trace (st_trace s ++ [ev]) s).

Definition logging (lv : level) (msg : log_msg) : M unit := emit (EvLog lv msg).

(** Consult an oracle: it sees how many interactions came before. *)
Definition ask {A : Type} (f : nat -> A) : M A :=
  fun s => (Ret (f (st_tick s)), set_tick (S (st_tick s)) s).

(** [obj[k]] on a dictionary: [KeyError] when the key is absent. *)
Definition getitem (d : pydict) (k : string) : M pyval :=
  match dict_lookup d k with
  | Some v => ret v
  | None => raise (KeyError k)
  end.

(** [obj[k] = x] on whatever [json.loads] returned: only a dictionary
    accepts it. *)
Definition setitem (v : pyval) (k : string) (x : pyval) : M pydict :=
  match v with
  | PDict d => ret (dict_set d k x)
  | PList _ => raise (TypeError "list indices must be integers or slices, not str")
  | PNone => raise (TypeError "'NoneType' object does not support item assignment")
  | PBool _ => raise (TypeError "'bool' object does not support item assignment")
  | PInt _ => raise (TypeError "'int' object does not support item assignment")
  | PFloat _ => raise (TypeError "'float' object does not support item assignment")
  | PStr _ => raise (TypeError "'str' object does not support item assignment")
  end.

(** Python truthiness of a JSON value. *)
Definition truthy (v : pyval) : bool :=
  match v with
  | PNone => false
  | PBool b => b
  | PInt n => negb (n =? 0)
  | PFloat f => negb (PrimFloat.eqb f 0%float)
  | PStr s => negb (String.eqb s "")
  | PList l => match l with [] => false | _ => true end
  | PDict d => match d with [] => false | _ => true end
  end.

(** [datetime.now()]. *)
Definition datetime_now (env : Env) : M datetime := ask (clock env).

(** [subprocess.run(["tmux", ...], timeout=5)]: an argument that is not a
    string is refused with a [TypeError] before any process starts. *)
Definition subprocess_run (env : Env) (cmd : tmux_cmd) : M (Z * string) :=
  emit (EvTmux cmd) ;;;
  match cmd with
  | SendKeys _ _ (PStr _) | CapturePane _ _ _ | HasSession _ =>
      out <- ask (fun n => run_tmux env n cmd) ;;
      match out with
      | Completed returncode stdout => ret (returncode, stdout)
      | ProcRaises e => raise e
      end
  | SendKeys _ _ _ =>
      raise (TypeError "expected str, bytes or os.PathLike object")
  end.

(* ===================================================================== *)
(** ** class WorkerState *)
(* ===================================================================== *)

Module WorkerStateM.

(** [WorkerState(worker_id, window_num)] built at time [now]. *)
Definition init (id : string) (window : Z) (now : datetime) : WorkerState :=
  {| worker_id := id;
     window_num := window;
     last_activity := now;
     last_analysis := None;
     status := PStr "STARTING";
     consecutive_stuck_count := 0 |}.

Definition set_last_activity (t : datetime) (w : WorkerState) : WorkerState :=
  mk_worker (worker_id w) (window_num w) t (last_analysis w) (status w)
            (consecutive_stuck_count w).

Definition set_last_analysis (a : pydict) (w : WorkerState) : WorkerState :=
  mk_worker (worker_id w) (window_num w) (last_activity w) (Some a) (status w)
            (consecutive_stuck_count w).

Definition set_status (v : pyval) (w : WorkerState) : WorkerState :=
  mk_worker (worker_id w) (window_num w) (last_activity w) (last_analysis w) v
            (consecutive_stuck_count w).

Definition set_stuck_count (n : Z) (w : WorkerState) : WorkerState :=
  mk_worker (worker_id w) (window_num w) (last_activity w) (last_analysis w)
            (status w) n.

(** [update_activity]: the body, at clock reading [now]. *)
Definition update_activity_at (now : datetime) (w : WorkerState) : WorkerState :=
  set_stuck_count 0 (set_last_activity now w).

(** [is_stale]: the body, at clock reading [now]. *)
Definition is_stale_at (now : datetime) (w : WorkerState) (threshold_seconds : Z) : bool :=
  seconds (datetime_sub now (last_activity w)) >? threshold_seconds.

(** [is_stale(self, threshold_seconds)]. *)
Definition is_stale (env : Env) (w : WorkerState) (threshold_seconds : Z) : M bool :=
  now <- datetime_now env ;;
  ret (is_stale_at now w threshold_seconds).

End WorkerStateM.

(** [self.workers.get(id)]. *)
Fixpoint workers_get (ws : list (string * WorkerState)) (id : string) : option WorkerState :=
  match ws with
  | [] => None
  | (k, w) :: ws' => if String.eqb k id then Some w else workers_get ws' id
  end.

(** Mutation of the worker object stored under [id]. *)
Fixpoint workers_update (ws : list (string * WorkerState)) (id : string)
         (f : WorkerState -> WorkerState) : list (string * WorkerState) :=
  match ws with
  | [] => []
  | (k, w) :: ws' =>
      if String.eqb k id then (k, f w) :: ws' else (k, w) :: workers_update ws' id f
  end.

(** [self.workers[id] = w]. *)
Fixpoint workers_set (ws : list (string * WorkerState)) (id : string) (w : WorkerState)
  : list (string * WorkerState) :=
  match ws with
  | [] => [(id, w)]
  | (k, w') :: ws' =>
      if String.eqb k id then (k, w) :: ws' else (k, w') :: workers_set ws' id w
  end.

Definition mutate_worker (id : string) (f : WorkerState -> WorkerState) : M unit :=
  modify (fun s => set_workers (workers_update (st_workers s) id f) s).

(** [WorkerState.update_activity] on the worker stored under [id]. *)
Definition update_activity (env : Env) (id : string) : M unit :=
  now <- datetime_now env ;;
  mutate_worker id (WorkerStateM.update_activity_at now).

(* ===================================================================== *)
(** ** class TmuxInterface *)
(* ===================================================================== *)

Module TmuxInterface.

Definition capture_pane (env : Env) (window lines : Z) : M (option string) :=
  try_except
    (session <- gets st_session ;;
     r <- subprocess_run env (CapturePane session window lines) ;;
     if fst r =? 0 then ret (Some (snd r)) else ret None)
    (fun e => logging ERROR (MsgCaptureFailed window e) ;;; ret None).

Definition send_keys (env : Env) (window : Z) (keys : pyval) : M bool :=
  try_except
    (session <- gets st_session ;;
     r <- subprocess_run env (SendKeys session window keys) ;;
     ret (fst r =? 0))
    (fun e => logging ERROR (MsgSendKeysFailed window e) ;;; ret false).

Definition session_exists (env : Env) : M bool :=
  try_except
    (session <- gets st_session ;;
     r <- subprocess_run env (HasSession session) ;;
     ret (fst r =? 0))
    (fun _ => ret false).

End TmuxInterface.

(* ===================================================================== *)
(** ** class WorkerAnalyzer *)
(* ===================================================================== *)

(** [int * float]: the integer is first converted to a double (exactly,
    for the token counts below 2^53 an API reports). *)
Definition float_of_int (n : Z) : float := PrimFloat.of_uint63 (Uint63.of_Z n).

Module WorkerAnalyzer.

(** Haiku pricing: $0.25 per million input tokens, $1.25 per million
    output tokens. *)
Definition cost_of (input_tokens output_tokens : Z) : float :=
  (float_of_int input_tokens * 0.25 / 1000000
   + float_of_int output_tokens * 1.25 / 1000000)%float.

Definition bump_requests : M unit :=
  modify (fun s => set_counters (st_total_requests s + 1) (st_total_cost s) s).

Definition add_cost (c : float) : M unit :=
  modify (fun s => set_counters (st_total_requests s) (st_total_cost s + c)%float s).

(** The context handed to the classifier: the optional parts are
    inserted only when truthy, the task cut to its first 500
    characters. *)
Definition build_context (worker_id terminal_output : string)
           (last_event worker_prompt : option string) : classifier_input :=
  {| ci_worker := worker_id;
     ci_terminal := terminal_output;
     ci_last_event := if truthy_str last_event then last_event else None;
     ci_task := if truthy_str worker_prompt
                then option_map (fun p => substring 0 500 p ++ "...")%string worker_prompt
                else None |}.

(** The dictionary both [except] clauses return. *)
Definition error_analysis (reasoning : string) : pydict :=
  [("status", PStr "error");
   ("action", PStr "none");
   ("reasoning", PStr reasoning);
   ("confidence", PInt 0)].

(** The body of the [try] block. *)
Definition call_and_parse (env : Env) (worker_id : string) (inp : classifier_input)
  : M pydict :=
  bump_requests ;;;
  emit (EvClassify inp) ;;;
  out <- ask (fun n => classify env n inp) ;;
  match out with
  | LLMRaises msg => raise (APIError msg)
  | LLMEmpty input_tokens output_tokens =>
      add_cost (cost_of input_tokens output_tokens) ;;;
      raise (IndexError "list index out of range")
  | LLMMalformed input_tokens output_tokens text msg =>
      add_cost (cost_of input_tokens output_tokens) ;;;
      raise (JSONDecodeError msg text)
  | LLMParsed input_tokens output_tokens v =>
      let cost := cost_of input_tokens output_tokens in
      add_cost cost ;;;
      r1 <- setitem v "cost" (PFloat cost) ;;
      r2 <- setitem (PDict r1) "tokens"
                    (PDict [("input", PInt input_tokens);
                            ("output", PInt output_tokens)]) ;;
      st <- getitem r2 "status" ;;
      act <- getitem r2 "action" ;;
      conf <- getitem r2 "confidence" ;;
      logging INFO (MsgLLMAnalysis worker_id st act cost conf) ;;;
      ret r2
  end.

(** The two [except] clauses, in order. *)
Definition on_failure (e : exn) : M pydict :=
  match e with
  | JSONDecodeError _ doc =>
      logging ERROR (MsgParseFailed e) ;;;
      logging DEBUG (MsgRawResponse doc) ;;;
      ret (error_analysis ("Failed to parse LLM response: " ++ exn_str e)%string)
  | _ =>
      logging ERROR (MsgAnalysisFailed e) ;;;
      ret (error_analysis ("Analysis failed: " ++ exn_str e)%string)
  end.

Definition analyze_worker (env : Env) (worker_id terminal_output : string)
           (last_event worker_prompt : option string) : M pydict :=
  let inp := build_context worker_id terminal_output last_event worker_prompt in
  try_except (call_and_parse env worker_id inp) on_failure.

End WorkerAnalyzer.

(* ===================================================================== *)
(** ** class ActionExecutor *)
(* ===================================================================== *)

Module ActionExecutor.

(** The [decision] dictionary of [_log_decision]. *)
Definition make_decision (timestamp : datetime) (worker_id : string) (analysis : pydict)
  : decision :=
  {| d_timestamp := timestamp;
     d_worker := worker_id;
     d_status := dict_get analysis "status";
     d_action := dict_get analysis "action";
     d_keys := dict_get analysis "keys";
     d_reasoning := dict_get analysis "reasoning";
     d_confidence := dict_get analysis "confidence";
     d_cost := dict_get_default analysis "cost" (PInt 0);
     d_tokens := dict_get_default analysis "tokens" (PDict []) |}.

(** The line written to the human-readable log. *)
Definition human_line (d : decision) : human_record :=
  {| h_timestamp := d_timestamp d;
     h_worker := d_worker d;
     h_status := d_status d;
     h_action := d_action d;
     h_confidence := d_confidence d;
     h_reasoning := d_reasoning d |}.

Definition append_human (r : human_record) : M unit :=
  modify (fun s => set_logs (st_decisions_log s ++ [r]) (st_json_log s) s).

Definition append_json (d : decision) : M unit :=
  modify (fun s => set_logs (st_decisions_log s) (st_json_log s ++ [d]) s).

Definition _log_decision (env : Env) (worker_id : string) (analysis : pydict) : M unit :=
  timestamp <- datetime_now env ;;
  let d := make_decision timestamp worker_id analysis in
  append_human (human_line d) ;;;
  append_json d.

Definition execute (env : Env) (worker_id : string) (window : Z) (analysis : pydict)
  : M bool :=
  let action := dict_get_default analysis "action" (PStr "none") in
  _log_decision env worker_id analysis ;;;
  if py_eq_str action "none" then ret true
  else if py_eq_str action "intervene" then
    reasoning <- getitem analysis "reasoning" ;;
    logging WARNING (MsgNeedsIntervention worker_id reasoning) ;;;
    ret false
  else
    cfg <- gets st_config ;;
    if negb (auto_approve cfg) then
      logging INFO (MsgAutoApproveDisabled worker_id action) ;;;
      ret false
    else if py_in_strs action ["approve"; "send_keys"] then
      let keys := dict_get_default analysis "keys" (PStr "C-m") in
      reasoning <- getitem analysis "reasoning" ;;
      logging INFO (MsgExecuting worker_id keys reasoning) ;;;
      success <- TmuxInterface.send_keys env window keys ;;
      (if success : bool
       then logging INFO (MsgActionOk worker_id)
       else logging ERROR (MsgActionFailed worker_id)) ;;;
      ret success
    else ret false.

End ActionExecutor.

(* ===================================================================== *)
(** ** class LLMMonitorDaemon *)
(* ===================================================================== *)

Module LLMMonitorDaemon.

(** [_initialize_workers]: worker [idx] of the configuration gets window
    [idx + 1]; each [WorkerState] reads the clock. *)
Fixpoint initialize_from (env : Env) (idx : Z) (ids : list string) : M unit :=
  match ids with
  | [] => ret tt
  | id :: rest =>
      now <- datetime_now env ;;
      modify (fun s =>
                set_workers (workers_set (st_workers s) id
                               (WorkerStateM.init id (idx + 1) now)) s) ;;;
      initialize_from env (idx + 1) rest
  end.

Definition _initialize_workers (env : Env) (ids : list string) : M unit :=
  initialize_from env 0 ids.

(** [worker_id in self.workers], for whatever the event line named. *)
Definition in_workers (v : pyval) : M bool :=
  match v with
  | PStr id =>
      ws <- gets st_workers ;;
      ret (match workers_get ws id with Some _ => true | None => false end)
  | PList _ => raise (TypeError "unhashable type: 'list'")
  | PDict _ => raise (TypeError "unhashable type: 'dict'")
  | _ => ret false
  end.

(** The body of the [try] block of [on_events_update], once the last
    line has been read. *)
Definition touch_from_event (env : Env) (tail : events_tail) : M unit :=
  match tail with
  | NoEventsFile => ret tt
  | NoEvents => ret tt
  | EventsUnreadable e => raise e
  | LastEvent (PDict last_event) =>
      let source := dict_get last_event "source" in
      let wid := if truthy source then source else dict_get last_event "worker" in
      known <- in_workers wid ;;
      if known : bool then
        match wid with
        | PStr id =>
            update_activity env id ;;;
            logging DEBUG (MsgEvent id (dict_get last_event "event"))
        | _ => ret tt
        end
      else ret tt
  | LastEvent _ => raise (AttributeError "object has no attribute 'get'")
  end.

Definition on_events_update (env : Env) : M unit :=
  tail <- ask (read_events_tail env) ;;
  try_except (touch_from_event env tail)
             (fun e => logging ERROR (MsgEventsFailed e)).

Definition on_worker_log_update (env : Env) (worker_id : string) : M unit :=
  ws <- gets st_workers ;;
  match workers_get ws worker_id with
  | Some _ =>
      update_activity env worker_id ;;;
      logging DEBUG (MsgLogUpdate worker_id)
  | None => ret tt
  end.

(** The tail of [analyze_worker]: "Update stuck count". *)
Definition update_stuck_count (worker_id : string) (analysis : pydict) : M unit :=
  st <- getitem analysis "status" ;;
  if py_in_strs st ["stuck"; "confused"] then
    mutate_worker worker_id
      (fun w => WorkerStateM.set_stuck_count (consecutive_stuck_count w + 1) w) ;;;
    ws <- gets st_workers ;;
    match workers_get ws worker_id with
    | Some w =>
        if consecutive_stuck_count w >=? 3
        then logging ERROR (MsgStuckInARow worker_id (consecutive_stuck_count w))
        else ret tt
    | None => ret tt
    end
  else
    mutate_worker worker_id (WorkerStateM.set_stuck_count 0).

(** What [analyze_worker] does with the analyzer's answer. *)
Definition apply_analysis (env : Env) (worker_id : string) (window : Z)
           (analysis : pydict) : M unit :=
  mutate_worker worker_id (WorkerStateM.set_last_analysis analysis) ;;;
  st <- getitem analysis "status" ;;
  mutate_worker worker_id (WorkerStateM.set_status st) ;;;
  act <- getitem analysis "action" ;;
  (if negb (py_eq_str act "none")
   then ActionExecutor.execute env worker_id window analysis ;;; ret tt
   else ret tt) ;;;
  update_stuck_count worker_id analysis.

Definition analyze_worker (env : Env) (worker_id : string) : M unit :=
  emit (EvAnalyzeWorker worker_id) ;;;
  cfg <- gets st_config ;;
  if negb (enabled cfg) then ret tt
  else
    ws <- gets st_workers ;;
    match workers_get ws worker_id with
    | None => ret tt
    | Some worker =>
        terminal_output <- TmuxInterface.capture_pane env (window_num worker)
                                                      (max_context_lines cfg) ;;
        match terminal_output with
        | None => logging WARNING (MsgNoTerminalOutput worker_id)
        | Some "" => logging WARNING (MsgNoTerminalOutput worker_id)
        | Some text =>
            last_event <- ask (fun n => scan_events env n worker_id) ;;
            prompt_text <- ask (fun n => read_prompt env n worker_id) ;;
            let worker_prompt := option_map (substring 0 1000) prompt_text in
            analysis <- WorkerAnalyzer.analyze_worker env worker_id text
                                                      last_event worker_prompt ;;
            apply_analysis env worker_id (window_num worker) analysis
        end
    end.

(** The body of the [for] loop of [check_stale_workers], for the worker
    stored under one key. *)
Definition check_worker (env : Env) (id : string) : M unit :=
  ws <- gets st_workers ;;
  match workers_get ws id with
  | None => ret tt
  | Some worker =>
      cfg <- gets st_config ;;
      stale <- WorkerStateM.is_stale env worker (stale_threshold cfg) ;;
      if stale : bool then
        if negb (py_in_strs (status worker) ["COMPLETE"; "STUCK"]) then
          logging INFO (MsgCheckingStale id) ;;;
          analyze_worker env id
        else ret tt
      else ret tt
  end.

(** The loop, over the keys of [self.workers] in insertion order. *)
Fixpoint check_each (env : Env) (ids : list string) : M unit :=
  match ids with
  | [] => ret tt
  | id :: rest => check_worker env id ;;; check_each env rest
  end.

Definition check_stale_workers (env : Env) : M unit :=
  ws <- gets st_workers ;;
  check_each env (map fst ws).

End LLMMonitorDaemon.

(* ===================================================================== *)
(** ** class LogFileEventHandler *)
(* ===================================================================== *)

(** [s.endswith(suffix)]. *)
Definition endswith (s suffix : string) : bool :=
  (String.length suffix <=? String.length s)%nat
  && String.eqb (substring (String.length s - String.length suffix)
                           (String.length suffix) s)
                suffix.

(** [name.rfind('.')]: the index of the last dot. *)
Fixpoint rfind_dot (name : string) : option nat :=
  match name with
  | EmptyString => None
  | String c rest =>
      match rfind_dot rest with
      | Some i => Some (S i)
      | None => if Ascii.eqb c "."%char then Some O else None
      end
  end.

(** [PurePath.stem] (as in CPython up to 3.12): the name without its last
    suffix; a leading or a trailing dot starts no suffix. *)
Definition path_stem (name : string) : string :=
  match rfind_dot name with
  | Some i =>
      if ((0 <? i) && (i <? String.length name - 1))%nat
      then substring 0 i name
      else name
  | None => name
  end.

(** A watchdog event: whether it is about a directory, and the final
    component of its [src_path] ([Path(event.src_path).name]). *)
Record fs_event : Type := mk_fs_event {
  is_directory : bool;
  src_name : string
}.

Module LogFileEventHandler.

Definition on_modified (env : Env) (ev : fs_event) : M unit :=
  if is_directory ev then ret tt
  else if String.eqb (src_name ev) "events.jsonl" then
    LLMMonitorDaemon.on_events_update env
  else if endswith (src_name ev) ".log"
          && negb (String.eqb (src_name ev) "orchestration.log") then
    LLMMonitorDaemon.on_worker_log_update env (path_stem (src_name ev))
  else ret tt.

End LogFileEventHandler.

(* ===================================================================== *)
(** ** LLMMonitorDaemon._load_config *)
(* ===================================================================== *)

(** What [_load_config] finds at [config.json]: no file, a file that
    cannot be opened or parsed, or the parsed document. *)
Inductive config_file : Type :=
| ConfigMissing
| ConfigUnreadable (e : exn)
| ConfigData (data : pyval).

(** The [MonitorConfig] object while it is being loaded: the four
    attributes the file may override hold whatever JSON value it gives. *)
Record loaded_config : Type := mk_loaded {
  lc_enabled : pyval;
  lc_model : pyval;
  lc_check_interval : pyval;
  lc_stale_threshold : Z;
  lc_max_context_lines : Z;
  lc_auto_approve : pyval;
  lc_log_all_decisions : bool;
  lc_api_key : option string
}.

(** The warnings [_load_config] logs. *)
Inductive load_warning : Type :=
| WarnNoApiKey
| WarnLoadFailed (e : exn).

Module ConfigLoader.

(** [MonitorConfig()] with [api_key] read from the environment. *)
Definition initial (key : option string) : loaded_config :=
  {| lc_enabled := PBool (enabled default_config);
     lc_model := PStr (model default_config);
     lc_check_interval := PInt (check_interval default_config);
     lc_stale_threshold := stale_threshold default_config;
     lc_max_context_lines := max_context_lines default_config;
     lc_auto_approve := PBool (auto_approve default_config);
     lc_log_all_decisions := log_all_decisions default_config;
     lc_api_key := key |}.

Definition set_enabled (v : pyval) (c : loaded_config) : loaded_config :=
  mk_loaded v (lc_model c) (lc_check_interval c) (lc_stale_threshold c)
            (lc_max_context_lines c) (lc_auto_approve c) (lc_log_all_decisions c)
            (lc_api_key c).

Definition set_model (v : pyval) (c : loaded_config) : loaded_config :=
  mk_loaded (lc_enabled c) v (lc_check_interval c) (lc_stale_threshold c)
            (lc_max_context_lines c) (lc_auto_approve c) (lc_log_all_decisions c)
            (lc_api_key c).

Definition set_check_interval (v : pyval) (c : loaded_config) : loaded_config :=
  mk_loaded (lc_enabled c) (lc_model c) v (lc_stale_threshold c)
            (lc_max_context_lines c) (lc_auto_approve c) (lc_log_all_decisions c)
            (lc_api_key c).

Definition set_auto_approve (v : pyval) (c : loaded_config) : loaded_config :=
  mk_loaded (lc_enabled c) (lc_model c) (lc_check_interval c) (lc_stale_threshold c)
            (lc_max_context_lines c) v (lc_log_all_decisions c) (lc_api_key c).

(** [key in obj]: a key of a dictionary, an element of a list, a substring
    of a string; anything else is not iterable. *)
Definition contains (key : string) (obj : pyval) : result bool :=
  match obj with
  | PDict d => Ret (match dict_lookup d key with Some _ => true | None => false end)
  | PList l => Ret (existsb (fun v => py_eq_str v key) l)
  | PStr s => Ret (match String.index 0 key s with Some _ => true | None => false end)
  | PNone => Raise (TypeError "argument of type 'NoneType' is not iterable")
  | PBool _ => Raise (TypeError "argument of type 'bool' is not iterable")
  | PInt _ => Raise (TypeError "argument of type 'int' is not iterable")
  | PFloat _ => Raise (TypeError "argument of type 'float' is not iterable")
  end.

(** [obj[key]] for a string key. *)
Definition subscript (obj : pyval) (key : string) : result pyval :=
  match obj with
  | PDict d =>
      match dict_lookup d key with
      | Some v => Ret v
      | None => Raise (KeyError key)
      end
  | PList _ => Raise (TypeError "list indices must be integers or slices, not str")
  | PStr _ => Raise (TypeError "string indices must be integers")
  | PNone => Raise (TypeError "'NoneType' object is not subscriptable")
  | PBool _ => Raise (TypeError "'bool' object is not subscriptable")
  | PInt _ => Raise (TypeError "'int' object is not subscriptable")
  | PFloat _ => Raise (TypeError "'float' object is not subscriptable")
  end.

(** [if key in llm_config: config.attr = llm_config[key]], on a
    configuration that is updated in place: what was assigned before an
    exception stays assigned. *)
Definition override (llm_config : pyval) (key : string)
           (set : pyval -> loaded_config -> loaded_config)
           (acc : loaded_config * option exn) : loaded_config * option exn :=
  match acc with
  | (c, Some e) => (c, Some e)
  | (c, None) =>
      match contains key llm_config with
      | Raise e => (c, Some e)
      | Ret false => (c, None)
      | Ret true =>
          match subscript llm_config key with
          | Ret v => (set v c, None)
          | Raise e => (c, Some e)
          end
      end
  end.

(** The body of the [try] block, once [json.load] has returned [data]. *)
Definition apply_file (data : pyval) (c : loaded_config) : loaded_config * option exn :=
  match data with
  | PDict d =>
      let llm_config := dict_get_default d "llm_monitor" (PDict []) in
      override llm_config "auto_approve" set_auto_approve
        (override llm_config "check_interval" set_check_interval
           (override llm_config "model" set_model
              (override llm_config "enabled" set_enabled (c, None))))
  | _ => (c, Some (AttributeError "object has no attribute 'get'"))
  end.

(** [_load_config], given the value of [ANTHROPIC_API_KEY] and what is at
    [config.json]; returns the configuration and the warnings logged. *)
Definition _load_config (key : option string) (file : config_file)
  : loaded_config * list load_warning :=
  let c0 := initial key in
  let (c1, w1) := if truthy_str key then (c0, [])
                  else (set_enabled (PBool false) c0, [WarnNoApiKey]) in
  match file with
  | ConfigMissing => (c1, w1)
  | ConfigUnreadable e => (c1, w1 ++ [WarnLoadFailed e])
  | ConfigData data =>
      match apply_file data c1 with
      | (c2, None) => (c2, w1)
      | (c2, Some e) => (c2, w1 ++ [WarnLoadFailed e])
      end
  end.

End ConfigLoader.

(* ===================================================================== *)
(** ** Views of the state and sample runs *)
(* ===================================================================== *)

Definition is_send_keys (ev : event) : bool :=
  match ev with
  | EvTmux (SendKeys _ _ _) => true
  | _ => false
  end.

(** The calls of [tmux send-keys] made so far. *)
Definition send_keys_calls (s : State) : list event :=
  filter is_send_keys (st_trace s).

(** The escalation entry of [analyze_worker] ("stuck N times in a row"),
    logged at level ERROR, for worker [id]. *)
Definition is_escalation (id : string) (ev : event) : bool :=
  match ev with
  | EvLog ERROR (MsgStuckInARow w _) => String.eqb w id
  | _ => false
  end.

Definition escalations (id : string) (s : State) : list event :=
  filter (is_escalation id) (st_trace s).

Definition is_analyze_of (id : string) (ev : event) : bool :=
  match ev with
  | EvAnalyzeWorker w => String.eqb w id
  | _ => false
  end.

(** The entries into [LLMMonitorDaemon.analyze_worker] for worker [id]. *)
Definition passes (id : string) (s : State) : list event :=
  filter (is_analyze_of id) (st_trace s).

(** The statuses the classifier reported, read off the analyzer's
    "LLM Analysis for ..." entries for worker [id]. *)
Definition reported_status (id : string) (ev : event) : option pyval :=
  match ev with
  | EvLog INFO (MsgLLMAnalysis w st _ _ _) => if String.eqb w id then Some st else None
  | _ => None
  end.

Fixpoint reported_statuses (id : string) (t : list event) : list pyval :=
  match t with
  | [] => []
  | ev :: t' =>
      match reported_status id ev with
      | Some st => st :: reported_statuses id t'
      | None => reported_statuses id t'
      end
  end.

(** The worker stored under [id], if any. *)
Definition worker_of (id : string) (s : State) : option WorkerState :=
  workers_get (st_workers s) id.

(** The final state of a computation, and its outcome. *)
Definition exec {A : Type} (m : M A) (s : State) : State := snd (m s).
Definition outcome {A : Type} (m : M A) (s : State) : result A := fst (m s).

(** [m] leaves the view [view] of the state as it found it, whether it
    returns or raises. *)
Definition preserves {A V : Type} (view : State -> V) (m : M A) : Prop :=
  forall s, view (exec m s) = view s.

(** [m] never turns the interaction counter back. *)
Definition advances {A : Type} (m : M A) : Prop :=
  forall s, (st_tick s <= st_tick (exec m s))%nat.

(** At its [n]-th reading the clock shows worker [w] idle for less than a
    day and for more whole seconds than [threshold]. *)
Definition idle_beyond (env : Env) (w : WorkerState) (threshold : Z) (n : nat) : Prop :=
  let elapsed := clock env n - last_activity w in
  0 <= elapsed < us_per_day /\ threshold < elapsed / us_per_second.

(** The statuses that count towards escalation. *)
Definition stuck_like (v : pyval) : bool := py_in_strs v ["stuck"; "confused"].

(** A pass over worker [id] started in [s] reaches the classifier and
    stores a result whose status is [stuck] or [confused] and which carries
    a justification. *)
Definition stuck_result (env : Env) (id : string) (s : State) : Prop :=
  let s' := exec (LLMMonitorDaemon.analyze_worker env id) s in
  st_total_requests s' = st_total_requests s + 1 /\
  exists w a,
    worker_of id s' = Some w /\ last_analysis w = Some a /\
    stuck_like (dict_get a "status") = true /\
    dict_lookup a "reasoning" <> None.

(** The state after [execute] has been called on each decision of a list
    in turn, whatever each call returned or raised. *)
Fixpoint execute_each (env : Env) (ds : list (string * Z * pydict)) (s : State) : State :=
  match ds with
  | [] => s
  | (wid, window, analysis) :: rest =>
      execute_each env rest (exec (ActionExecutor.execute env wid window analysis) s)
  end.

(** What no pass writes: a worker's window and the time of its last
    activity. *)
Definition pinned (w : WorkerState) : Z * datetime := (window_num w, last_activity w).

(** The shape the analyzer accepts: a JSON object with the three keys its
    logging call reads. *)
Definition well_shaped (v : pyval) : bool :=
  match v with
  | PDict d =>
      match dict_lookup d "status", dict_lookup d "action", dict_lookup d "confidence" with
      | Some _, Some _, Some _ => true
      | _, _, _ => false
      end
  | _ => false
  end.

(** The decisions on which [execute] reads [analysis['reasoning']]. *)
Definition reads_reasoning (cfg : MonitorConfig) (action : pyval) : bool :=
  py_eq_str action "intervene"
  || (auto_approve cfg && py_in_strs action ["approve"; "send_keys"]).

(** What [tmux send-keys] answers, as [send_keys] reports it. *)
Definition keys_accepted (o : proc_outcome) : bool :=
  match o with
  | Completed returncode _ => returncode =? 0
  | ProcRaises _ => false
  end.

Module Scenario.

(** An environment that always answers the same. *)
Definition steady (clk : nat -> datetime) (pane : proc_outcome) (answer : llm_outcome)
  : Env :=
  {| clock := clk;
     run_tmux := fun _ _ => pane;
     classify := fun _ _ => answer;
     scan_events := fun _ _ => None;
     read_events_tail := fun _ => NoEventsFile;
     read_prompt := fun _ _ => None |}.

(** A clock on which successive interactions are [gap] seconds apart,
    the first one [gap] seconds after time 0. *)
Definition every (gap : Z) (n : nat) : datetime :=
  (Z.of_nat n + 1) * gap * us_per_second.

Definition fresh_state (cfg : MonitorConfig) (ws : list (string * WorkerState)) : State :=
  {| st_config := cfg;
     st_session := "czarina-demo";
     st_workers := ws;
     st_total_requests := 0;
     st_total_cost := 0%float;
     st_decisions_log := [];
     st_json_log := [];
     st_trace := [];
     st_tick := 0%nat |}.

Definition no_auto_approve : MonitorConfig :=
  mk_config true (model default_config) 30 300 100 false true (Some "key").

Definition with_key : MonitorConfig :=
  mk_config true (model default_config) 30 300 100 true true (Some "key").

(** A worker last active at time 0. *)
Definition worker_at (id : string) (window : Z) (st : string) (stuck : Z) : WorkerState :=
  {| worker_id := id;
     window_num := window;
     last_activity := 0;
     last_analysis := None;
     status := PStr st;
     consecutive_stuck_count := stuck |}.

Definition prompt_pane : proc_outcome := Completed 0 "Proceed? [Y/n]".

Definition answer (st act : string) : llm_outcome :=
  LLMParsed 1200 40
    (PDict [("status", PStr st); ("action", PStr act);
            ("reasoning", PStr "as seen in the pane"); ("confidence", PInt 90)]).

End Scenario.

(* ===================================================================== *)
(** ** Staleness *)
(* ===================================================================== *)

(** What [is_stale] computes: the [seconds] field of the normalised
    difference, not the whole elapsed time. *)
Lemma is_stale_at_unfold now w threshold :
  WorkerStateM.is_stale_at now w threshold
  = (((now - last_activity w) mod us_per_day) / us_per_second >? threshold).
Proof. reflexivity. Qed.

(** Below one day of idleness, [is_stale] compares the whole elapsed
    seconds with the threshold. *)
Lemma is_stale_at_within_day now w threshold :
  0 <= now - last_activity w < us_per_day ->
  (WorkerStateM.is_stale_at now w threshold = true
   <-> threshold < (now - last_activity w) / us_per_second).
Proof.
  intros Hrange. rewrite is_stale_at_unfold.
  rewrite Z.mod_small by exact Hrange.
  rewrite Z.gtb_ltb, Z.ltb_lt. reflexivity.
Qed.

Lemma timedelta_exact a b :
  total_microseconds (datetime_sub a b) = a - b.
Proof.
  unfold total_microseconds, datetime_sub; simpl.
  unfold us_per_day, seconds_per_day, us_per_second.
  set (us := a - b).
  pose proof (Z.div_mod us (86400 * 1000000) ltac:(lia)) as H1.
  pose proof (Z.div_mod (us mod (86400 * 1000000)) 1000000 ltac:(lia)) as H2.
  assert (H3 : (us mod (86400 * 1000000)) mod 1000000 = us mod 1000000).
  { apply Z.mod_mod_divide. exists 86400. lia. }
  rewrite H3 in H2. lia.
Qed.

(** C3 (the code departs from the claim): a worker idle for one day and ten
    seconds has been idle for more than a 300 s threshold, yet [is_stale]
    answers [False], because it reads [timedelta.seconds] (10) instead of the
    whole elapsed time. *)
Theorem is_stale_forgets_whole_days :
  let w := Scenario.worker_at "doc-1" 1 "WORKING" 0 in
  let now := (seconds_per_day + 10) * us_per_second in
  let env := Scenario.steady (fun _ => now) Scenario.prompt_pane (LLMRaises "unused") in
  let s := Scenario.fresh_state default_config [("doc-1", w)] in
  300 * us_per_second < total_microseconds (datetime_sub now (last_activity w)) /\
  seconds (datetime_sub now (last_activity w)) = 10 /\
  outcome (WorkerStateM.is_stale env w 300) s = Ret false.
Proof. vm_compute. repeat split; reflexivity. Qed.

(* ===================================================================== *)
(** ** The pane snapshot *)
(* ===================================================================== *)

(** C9: [capture_pane] never raises: it returns the captured text when
    tmux exits with status 0, and [None] on any other exit status and on any
    exception of [subprocess.run] (its time-out included). *)
Theorem capture_pane_total (env : Env) (window lines : Z) (s : State) :
  outcome (TmuxInterface.capture_pane env window lines) s
  = Ret (match run_tmux env (st_tick s) (CapturePane (st_session s) window lines) with
         | Completed 0 stdout => Some stdout
         | Completed _ _ => None
         | ProcRaises _ => None
         end).
Proof.
  unfold outcome, TmuxInterface.capture_pane, try_except, subprocess_run,
    bind, gets, emit, modify, ask, ret, raise, logging; simpl.
  destruct (run_tmux env (st_tick s) (CapturePane (st_session s) window lines))
    as [rc out | e]; simpl; [ | reflexivity ].
  destruct rc; reflexivity.
Qed.

(* ===================================================================== *)
(** ** Reasoning about computations *)
(* ===================================================================== *)

Lemma run_eta {A : Type} (m : M A) (s : State) : m s = (outcome m s, exec m s).
Proof. unfold outcome, exec. destruct (m s); reflexivity. Qed.

Lemma outcome_bind {A B : Type} (m : M A) (k : A -> M B) (s : State) :
  outcome (bind m k) s
  = match outcome m s with
    | Ret a => outcome (k a) (exec m s)
    | Raise e => Raise e
    end.
Proof. unfold outcome, exec, bind. destruct (m s) as [[a | e] s']; reflexivity. Qed.

Lemma exec_bind {A B : Type} (m : M A) (k : A -> M B) (s : State) :
  exec (bind m k) s
  = match outcome m s with
    | Ret a => exec (k a) (exec m s)
    | Raise _ => exec m s
    end.
Proof. unfold outcome, exec, bind. destruct (m s) as [[a | e] s']; reflexivity. Qed.

Lemma outcome_try {A : Type} (m : M A) (h : exn -> M A) (s : State) :
  outcome (try_except m h) s
  = match outcome m s with
    | Ret a => Ret a
    | Raise e => outcome (h e) (exec m s)
    end.
Proof. unfold outcome, exec, try_except. destruct (m s) as [[a | e] s']; reflexivity. Qed.

Lemma exec_try {A : Type} (m : M A) (h : exn -> M A) (s : State) :
  exec (try_except m h) s
  = match outcome m s with
    | Ret _ => exec m s
    | Raise e => exec (h e) (exec m s)
    end.
Proof. unfold outcome, exec, try_except. destruct (m s) as [[a | e] s']; reflexivity. Qed.

Section Frames.

Context {V : Type} (view : State -> V).

Lemma preserves_ret {A : Type} (a : A) : preserves view (ret a).
Proof. intros s. reflexivity. Qed.

Lemma preserves_raise {A : Type} (e : exn) : preserves view (@raise A e).
Proof. intros s. reflexivity. Qed.

Lemma preserves_gets {A : Type} (f : State -> A) : preserves view (gets f).
Proof. intros s. reflexivity. Qed.

Lemma preserves_modify (f : State -> State) :
  (forall s, view (f s) = view s) -> preserves view (modify f).
Proof. intros H s. apply H. Qed.

Lemma preserves_ask {A : Type} (f : nat -> A) :
  (forall n s, view (set_tick n s) = view s) -> preserves view (ask f).
Proof. intros H s. apply H. Qed.

Lemma preserves_bind {A B : Type} (m : M A) (k : A -> M B) :
  preserves view m -> (forall a, preserves view (k a)) -> preserves view (bind m k).
Proof.
  intros Hm Hk s. rewrite exec_bind.
  destruct (outcome m s); [ rewrite Hk | ]; apply Hm.
Qed.

Lemma preserves_try {A : Type} (m : M A) (h : exn -> M A) :
  preserves view m -> (forall e, preserves view (h e)) -> preserves view (try_except m h).
Proof.
  intros Hm Hh s. rewrite exec_try.
  destruct (outcome m s); [ | rewrite Hh ]; apply Hm.
Qed.

End Frames.

(** A filter of the trace is blind to the events it rejects. *)
Lemma filter_snoc_out {A : Type} (p : A -> bool) (l : list A) (x : A) :
  p x = false -> filter p (l ++ [x]) = filter p l.
Proof. intros H. rewrite filter_app. simpl. rewrite H. apply app_nil_r. Qed.

Lemma filter_snoc_in {A : Type} (p : A -> bool) (l : list A) (x : A) :
  p x = true -> filter p (l ++ [x]) = filter p l ++ [x].
Proof. intros H. rewrite filter_app. simpl. rewrite H. reflexivity. Qed.

(** Side conditions of the frame rules: the view ignores the field that
    changes. *)
Ltac view_side :=
  intros;
  unfold send_keys_calls, escalations, passes, worker_of;
  first [ reflexivity
        | simpl; apply filter_snoc_out; reflexivity ].

(** Walks through a computation built from the primitives. *)
Ltac frame :=
  repeat first
    [ apply preserves_ret
    | apply preserves_raise
    | apply preserves_gets
    | apply preserves_bind; [ | intros ]
    | apply preserves_try; [ | intros ]
    | apply preserves_modify; solve [ view_side ]
    | apply preserves_ask; solve [ view_side ]
    | match goal with
      | |- preserves _ (if ?b then _ else _) => destruct b
      | |- preserves _ (match ?x with _ => _ end) => destruct x
      | |- preserves _ (let _ := _ in _) => cbv zeta
      end ].

(* ===================================================================== *)
(** ** The analyzer boundary *)
(* ===================================================================== *)

Lemma dict_lookup_set_same (d : pydict) (k : string) (v : pyval) :
  dict_lookup (dict_set d k v) k = Some v.
Proof.
  induction d as [ | [k' v'] d IH]; simpl.
  - rewrite String.eqb_refl. reflexivity.
  - destruct (String.eqb k' k) eqn:E; simpl; rewrite E; [ reflexivity | exact IH ].
Qed.

Lemma dict_lookup_set_other (d : pydict) (k k' : string) (v : pyval) :
  k <> k' -> dict_lookup (dict_set d k v) k' = dict_lookup d k'.
Proof.
  intros Hneq. induction d as [ | [k0 v0] d IH]; simpl.
  - destruct (String.eqb_spec k k'); [ contradiction | reflexivity ].
  - destruct (String.eqb_spec k0 k) as [-> | Hk]; simpl.
    + destruct (String.eqb_spec k k'); [ contradiction | reflexivity ].
    + destruct (String.eqb_spec k0 k'); [ reflexivity | exact IH ].
Qed.

(** The fields the analyzer adds do not disturb the fields it reads. *)
Lemma lookup_after_accounting (d : pydict) (k : string) (c t : pyval) :
  k <> "cost" -> k <> "tokens" ->
  dict_lookup (dict_set (dict_set d "cost" c) "tokens" t) k = dict_lookup d k.
Proof.
  intros Hc Ht.
  rewrite dict_lookup_set_other by congruence.
  apply dict_lookup_set_other. congruence.
Qed.

Ltac run_monad :=
  unfold outcome, exec, try_except, bind, gets, emit, modify, ask, ret, raise,
    logging, getitem, setitem; simpl.

(** C6: when the classifier call raises (a time-out included), returns no
    content, or returns text that is not JSON, the analyzer returns -- it
    does not raise -- the synthesized decision: status [error], action
    [none], confidence 0, and a justification that names the failure. *)
Theorem classifier_failure_becomes_error_decision
        (env : Env) (wid text : string) (last_event prompt : option string) (s : State) :
  let inp := WorkerAnalyzer.build_context wid text last_event prompt in
  (forall it ot v, classify env (st_tick s) inp <> LLMParsed it ot v) ->
  exists d reason,
    outcome (WorkerAnalyzer.analyze_worker env wid text last_event prompt) s = Ret d /\
    dict_get d "status" = PStr "error" /\
    dict_get d "action" = PStr "none" /\
    dict_get d "confidence" = PInt 0 /\
    dict_get d "reasoning" = PStr reason /\
    match classify env (st_tick s) inp with
    | LLMRaises msg => reason = ("Analysis failed: " ++ msg)%string
    | LLMEmpty _ _ => reason = "Analysis failed: list index out of range"
    | LLMMalformed _ _ _ msg => reason = ("Failed to parse LLM response: " ++ msg)%string
    | LLMParsed _ _ _ => False
    end.
Proof.
  intros inp Hfail.
  unfold WorkerAnalyzer.analyze_worker, WorkerAnalyzer.call_and_parse,
    WorkerAnalyzer.on_failure, WorkerAnalyzer.bump_requests, WorkerAnalyzer.add_cost.
  fold inp. run_monad.
  destruct (classify env (st_tick s) inp) as [msg | it ot | it ot raw msg | it ot v] eqn:E.
  - eexists; eexists; simpl; repeat split; reflexivity.
  - eexists; eexists; simpl; repeat split; reflexivity.
  - eexists; eexists; simpl; repeat split; reflexivity.
  - exfalso. exact (Hfail it ot v eq_refl).
Qed.

Lemma classifier_failure_witness :
  exists d reason,
    outcome (WorkerAnalyzer.analyze_worker
               (Scenario.steady (Scenario.every 400) Scenario.prompt_pane
                                (LLMRaises "Request timed out."))
               "doc-1" "Proceed? [Y/n]" None None)
            (Scenario.fresh_state Scenario.with_key []) = Ret d /\
    dict_get d "status" = PStr "error" /\
    dict_get d "action" = PStr "none" /\
    dict_get d "confidence" = PInt 0 /\
    dict_get d "reasoning" = PStr reason /\
    reason = "Analysis failed: Request timed out.".
Proof.
  destruct (classifier_failure_becomes_error_decision
              (Scenario.steady (Scenario.every 400) Scenario.prompt_pane
                               (LLMRaises "Request timed out."))
              "doc-1" "Proceed? [Y/n]" None None
              (Scenario.fresh_state Scenario.with_key []))
    as (d & reason & H).
  - intros it ot v. simpl. discriminate.
  - exists d, reason. exact H.
Defined.

(** C4 (as the code has it): a response that parses to a JSON object
    carrying [status], [action] and [confidence] is returned by the analyzer
    as it was parsed, with [cost] and [tokens] added, whatever the values of
    [status] and [action] are: nothing compares them with the enumerations. *)
Theorem parsed_object_is_returned_unvalidated
        (env : Env) (wid text : string) (last_event prompt : option string) (s : State)
        (it ot : Z) (d : pydict) (st act conf : pyval) :
  classify env (st_tick s) (WorkerAnalyzer.build_context wid text last_event prompt)
  = LLMParsed it ot (PDict d) ->
  dict_lookup d "status" = Some st ->
  dict_lookup d "action" = Some act ->
  dict_lookup d "confidence" = Some conf ->
  let d' := dict_set (dict_set d "cost" (PFloat (WorkerAnalyzer.cost_of it ot)))
                     "tokens" (PDict [("input", PInt it); ("output", PInt ot)]) in
  outcome (WorkerAnalyzer.analyze_worker env wid text last_event prompt) s = Ret d' /\
  dict_get d' "status" = st /\
  dict_get d' "action" = act.
Proof.
  intros Hc Hst Hact Hconf d'.
  assert (L : forall k v, k <> "cost" -> k <> "tokens" ->
                          dict_lookup d k = Some v -> dict_lookup d' k = Some v).
  { intros k v H1 H2 H. unfold d'. rewrite lookup_after_accounting; assumption. }
  pose proof (L "status" st ltac:(discriminate) ltac:(discriminate) Hst) as Hst'.
  pose proof (L "action" act ltac:(discriminate) ltac:(discriminate) Hact) as Hact'.
  pose proof (L "confidence" conf ltac:(discriminate) ltac:(discriminate) Hconf) as Hconf'.
  repeat split.
  - unfold WorkerAnalyzer.analyze_worker, WorkerAnalyzer.call_and_parse,
      WorkerAnalyzer.bump_requests, WorkerAnalyzer.add_cost.
    run_monad. rewrite Hc. simpl. fold d'.
    rewrite Hst', Hact', Hconf'. reflexivity.
  - unfold dict_get. rewrite Hst'. reflexivity.
  - unfold dict_get. rewrite Hact'. reflexivity.
Qed.

Lemma parsed_object_witness :
  let env := Scenario.steady (Scenario.every 400) Scenario.prompt_pane
                             (Scenario.answer "stuck" "approve") in
  let s := Scenario.fresh_state Scenario.with_key [] in
  exists d',
    outcome (WorkerAnalyzer.analyze_worker env "build-1" "Proceed? [Y/n]" None None) s
    = Ret d' /\
    dict_get d' "status" = PStr "stuck" /\
    dict_get d' "action" = PStr "approve".
Proof.
  intros env s. eexists.
  apply (parsed_object_is_returned_unvalidated
           env "build-1" "Proceed? [Y/n]" None None s 1200 40
           [("status", PStr "stuck"); ("action", PStr "approve");
            ("reasoning", PStr "as seen in the pane"); ("confidence", PInt 90)]
           (PStr "stuck") (PStr "approve") (PInt 90));
    reflexivity.
Defined.

(** C4 (the claim fails): the classifier answers with status ["banana"]
    and action ["dance"], outside both enumerations.  The analyzer returns
    the answer unchanged, and after the daemon's pass the worker's status is
    the raw ["banana"] and the raw action ["dance"] has reached the executor
    and the audit log; no [error]/[none]/0 decision was substituted. *)
Lemma unknown_enum_values_are_forwarded :
  let env := Scenario.steady (Scenario.every 400) Scenario.prompt_pane
                             (Scenario.answer "banana" "dance") in
  let s := Scenario.fresh_state Scenario.with_key
             [("doc-1", Scenario.worker_at "doc-1" 1 "STARTING" 0)] in
  (exists d,
      outcome (WorkerAnalyzer.analyze_worker env "doc-1" "Proceed? [Y/n]" None None) s
      = Ret d /\
      dict_get d "status" = PStr "banana" /\
      dict_get d "action" = PStr "dance" /\
      dict_get d "confidence" = PInt 90) /\
  (let s' := exec (LLMMonitorDaemon.analyze_worker env "doc-1") s in
   option_map status (worker_of "doc-1" s') = Some (PStr "banana") /\
   map d_status (st_json_log s') = [PStr "banana"] /\
   map d_action (st_json_log s') = [PStr "dance"] /\
   map d_confidence (st_json_log s') = [PInt 90]).
Proof.
  intros env s. split.
  - eexists. vm_compute. repeat split; reflexivity.
  - vm_compute. repeat split; reflexivity.
Qed.

(* ===================================================================== *)
(** ** The executor *)
(* ===================================================================== *)

(** [_log_decision] appends one record to each log and nothing else. *)
Lemma log_decision_appends (env : Env) (wid : string) (analysis : pydict) (s : State) :
  let d := ActionExecutor.make_decision (clock env (st_tick s)) wid analysis in
  ActionExecutor._log_decision env wid analysis s
  = (Ret tt,
     set_logs (st_decisions_log s ++ [ActionExecutor.human_line d])
              (st_json_log s ++ [d])
              (set_tick (S (st_tick s)) s)).
Proof. reflexivity. Qed.

(** C7: with auto-approval switched off, executing a decision whose action
    is [approve] or [send_keys] makes no [tmux send-keys] call and still
    appends exactly one record to each of the two logs; the outcome reported
    is [False]. *)
Theorem auto_approve_off_logs_without_keystrokes
        (env : Env) (wid : string) (window : Z) (analysis : pydict) (act : string)
        (s : State) :
  auto_approve (st_config s) = false ->
  dict_lookup analysis "action" = Some (PStr act) ->
  act = "approve" \/ act = "send_keys" ->
  let m := ActionExecutor.execute env wid window analysis in
  let d := ActionExecutor.make_decision (clock env (st_tick s)) wid analysis in
  outcome m s = Ret false /\
  send_keys_calls (exec m s) = send_keys_calls s /\
  st_decisions_log (exec m s) = st_decisions_log s ++ [ActionExecutor.human_line d] /\
  st_json_log (exec m s) = st_json_log s ++ [d].
Proof.
  intros Hoff Hact Hcase m d. subst m.
  unfold ActionExecutor.execute, dict_get_default. rewrite Hact.
  unfold outcome, exec, bind at 1. rewrite log_decision_appends.
  destruct Hcase as [-> | ->]; simpl;
    unfold bind, gets, logging, emit, modify, ret; simpl;
    rewrite Hoff; simpl;
    (repeat split; try reflexivity);
    unfold send_keys_calls; simpl; apply filter_snoc_out; reflexivity.
Qed.

Lemma auto_approve_off_witness :
  let env := Scenario.steady (Scenario.every 400) Scenario.prompt_pane
                             (LLMRaises "unused") in
  let s := Scenario.fresh_state Scenario.no_auto_approve
             [("build-1", Scenario.worker_at "build-1" 1 "WORKING" 0)] in
  let analysis := [("status", PStr "stuck"); ("action", PStr "approve");
                   ("keys", PStr "Y"); ("reasoning", PStr "yes/no prompt");
                   ("confidence", PInt 90)] in
  let m := ActionExecutor.execute env "build-1" 1 analysis in
  outcome m s = Ret false /\
  send_keys_calls (exec m s) = [] /\
  List.length (st_decisions_log (exec m s)) = 1%nat /\
  List.length (st_json_log (exec m s)) = 1%nat.
Proof.
  intros env s analysis m.
  destruct (auto_approve_off_logs_without_keystrokes
              env "build-1" 1 analysis "approve" s eq_refl eq_refl (or_introl eq_refl))
    as (H1 & H2 & H3 & H4).
  fold m in H1, H2, H3, H4.
  split; [ exact H1 | ].
  split; [ rewrite H2; reflexivity | ].
  split; [ rewrite H3 | rewrite H4 ]; reflexivity.
Defined.

(** C10: for a decision whose action is none of [none], [intervene],
    [approve], [send_keys], [execute] still appends the record to both logs,
    makes no [tmux send-keys] call and returns [False]. *)
Theorem unrecognized_action_is_logged_and_refused
        (env : Env) (wid : string) (window : Z) (analysis : pydict) (act : pyval)
        (s : State) :
  dict_lookup analysis "action" = Some act ->
  py_in_strs act ["none"; "intervene"; "approve"; "send_keys"] = false ->
  let m := ActionExecutor.execute env wid window analysis in
  let d := ActionExecutor.make_decision (clock env (st_tick s)) wid analysis in
  outcome m s = Ret false /\
  send_keys_calls (exec m s) = send_keys_calls s /\
  st_decisions_log (exec m s) = st_decisions_log s ++ [ActionExecutor.human_line d] /\
  st_json_log (exec m s) = st_json_log s ++ [d].
Proof.
  intros Hact Hout m d. subst m.
  unfold py_in_strs in Hout. simpl in Hout.
  repeat (apply orb_false_elim in Hout; destruct Hout as [? Hout]).
  unfold ActionExecutor.execute, dict_get_default. rewrite Hact.
  unfold outcome, exec, bind at 1. rewrite log_decision_appends.
  rewrite H, H0. unfold py_in_strs. simpl. rewrite H1, H2. simpl.
  unfold bind, gets, logging, emit, modify, ret; simpl.
  destruct (auto_approve (st_config s)); simpl;
    (repeat split; try reflexivity).
  unfold send_keys_calls; simpl; apply filter_snoc_out; reflexivity.
Qed.

Lemma unrecognized_action_witness :
  let env := Scenario.steady (Scenario.every 400) Scenario.prompt_pane
                             (LLMRaises "unused") in
  let s := Scenario.fresh_state Scenario.with_key
             [("doc-1", Scenario.worker_at "doc-1" 1 "WORKING" 0)] in
  let analysis := [("status", PStr "working"); ("action", PStr "dance");
                   ("reasoning", PStr "unclear"); ("confidence", PInt 40)] in
  let m := ActionExecutor.execute env "doc-1" 1 analysis in
  outcome m s = Ret false /\
  send_keys_calls (exec m s) = [] /\
  List.length (st_decisions_log (exec m s)) = 1%nat /\
  List.length (st_json_log (exec m s)) = 1%nat.
Proof.
  intros env s analysis m.
  destruct (unrecognized_action_is_logged_and_refused
              env "doc-1" 1 analysis (PStr "dance") s eq_refl eq_refl)
    as (H1 & H2 & H3 & H4).
  fold m in H1, H2, H3, H4.
  split; [ exact H1 | ].
  split; [ rewrite H2; reflexivity | ].
  split; [ rewrite H3 | rewrite H4 ]; reflexivity.
Defined.

(* ===================================================================== *)
(** ** What each operation leaves alone *)
(* ===================================================================== *)

Lemma workers_get_update_same ws id f :
  workers_get (workers_update ws id f) id = option_map f (workers_get ws id).
Proof.
  induction ws as [ | [k w] ws IH]; simpl; [ reflexivity | ].
  destruct (String.eqb k id) eqn:E; simpl; rewrite E; [ reflexivity | exact IH ].
Qed.

Lemma workers_get_update_other ws id id' f :
  id <> id' -> workers_get (workers_update ws id f) id' = workers_get ws id'.
Proof.
  intros Hneq. induction ws as [ | [k w] ws IH]; simpl; [ reflexivity | ].
  destruct (String.eqb_spec k id) as [-> | Hk]; simpl.
  - destruct (String.eqb_spec id id'); [ contradiction | reflexivity ].
  - destruct (String.eqb k id'); [ reflexivity | exact IH ].
Qed.

Lemma workers_update_keys ws id f :
  map fst (workers_update ws id f) = map fst ws.
Proof.
  induction ws as [ | [k w] ws IH]; simpl; [ reflexivity | ].
  destruct (String.eqb k id); simpl; [ reflexivity | rewrite IH; reflexivity ].
Qed.

Section SubOperations.

Variable env : Env.

Ltac sub_frame :=
  unfold TmuxInterface.capture_pane, TmuxInterface.send_keys, subprocess_run,
    WorkerAnalyzer.analyze_worker, WorkerAnalyzer.call_and_parse,
    WorkerAnalyzer.on_failure, WorkerAnalyzer.bump_requests, WorkerAnalyzer.add_cost,
    ActionExecutor.execute, ActionExecutor._log_decision,
    ActionExecutor.append_human, ActionExecutor.append_json,
    datetime_now, logging, emit, getitem, setitem;
  frame.

(** Neither the snapshot, nor the classifier, nor the executor touches
    the registry of workers or the configuration. *)
Lemma capture_pane_keeps_workers window lines :
  preserves st_workers (TmuxInterface.capture_pane env window lines).
Proof. sub_frame. Qed.

Lemma capture_pane_keeps_config window lines :
  preserves st_config (TmuxInterface.capture_pane env window lines).
Proof. sub_frame. Qed.

Lemma capture_pane_keeps_requests window lines :
  preserves st_total_requests (TmuxInterface.capture_pane env window lines).
Proof. sub_frame. Qed.

Lemma capture_pane_keeps_logs window lines :
  preserves (fun s => (st_decisions_log s, st_json_log s))
            (TmuxInterface.capture_pane env window lines).
Proof. sub_frame. Qed.

Lemma capture_pane_keeps_escalations id window lines :
  preserves (escalations id) (TmuxInterface.capture_pane env window lines).
Proof. sub_frame. Qed.

Lemma capture_pane_keeps_passes id window lines :
  preserves (passes id) (TmuxInterface.capture_pane env window lines).
Proof. sub_frame. Qed.

Lemma analyzer_keeps_workers wid text le pr :
  preserves st_workers (WorkerAnalyzer.analyze_worker env wid text le pr).
Proof. sub_frame. Qed.

Lemma analyzer_keeps_config wid text le pr :
  preserves st_config (WorkerAnalyzer.analyze_worker env wid text le pr).
Proof. sub_frame. Qed.

Lemma analyzer_keeps_logs wid text le pr :
  preserves (fun s => (st_decisions_log s, st_json_log s))
            (WorkerAnalyzer.analyze_worker env wid text le pr).
Proof. sub_frame. Qed.

Lemma analyzer_keeps_escalations id wid text le pr :
  preserves (escalations id) (WorkerAnalyzer.analyze_worker env wid text le pr).
Proof. sub_frame. Qed.

Lemma analyzer_keeps_passes id wid text le pr :
  preserves (passes id) (WorkerAnalyzer.analyze_worker env wid text le pr).
Proof. sub_frame. Qed.

Lemma execute_keeps_workers wid window analysis :
  preserves st_workers (ActionExecutor.execute env wid window analysis).
Proof. sub_frame. Qed.

Lemma execute_keeps_config wid window analysis :
  preserves st_config (ActionExecutor.execute env wid window analysis).
Proof. sub_frame. Qed.

Lemma execute_keeps_requests wid window analysis :
  preserves st_total_requests (ActionExecutor.execute env wid window analysis).
Proof. sub_frame. Qed.

Lemma execute_keeps_escalations id wid window analysis :
  preserves (escalations id) (ActionExecutor.execute env wid window analysis).
Proof. sub_frame. Qed.

Lemma execute_keeps_passes id wid window analysis :
  preserves (passes id) (ActionExecutor.execute env wid window analysis).
Proof. sub_frame. Qed.

End SubOperations.

(* ===================================================================== *)
(** ** One pass of the daemon *)
(* ===================================================================== *)

(** The analyzer always returns a dictionary, and that dictionary has a
    status and an action: the lookups of its own logging call vouch for
    it on the success path. *)
Lemma analyzer_returns (env : Env) wid text le pr (s : State) :
  exists d st act,
    outcome (WorkerAnalyzer.analyze_worker env wid text le pr) s = Ret d /\
    dict_lookup d "status" = Some st /\
    dict_lookup d "action" = Some act.
Proof.
  unfold WorkerAnalyzer.analyze_worker, WorkerAnalyzer.call_and_parse,
    WorkerAnalyzer.on_failure, WorkerAnalyzer.bump_requests, WorkerAnalyzer.add_cost.
  run_monad.
  destruct (classify env (st_tick s) _) as [msg | it ot | it ot raw msg | it ot v];
    try (do 3 eexists; simpl; repeat split; reflexivity).
  destruct v; simpl; try (do 3 eexists; simpl; repeat split; reflexivity).
  destruct (dict_lookup _ "status") eqn:Hst; simpl;
    [ | do 3 eexists; simpl; repeat split; reflexivity ].
  destruct (dict_lookup _ "action") eqn:Hact; simpl;
    [ | do 3 eexists; simpl; repeat split; reflexivity ].
  destruct (dict_lookup _ "confidence") eqn:Hconf; simpl;
    [ | do 3 eexists; simpl; repeat split; reflexivity ].
  do 3 eexists. split; [ reflexivity | ]. split; eassumption.
Qed.

(** Each call of the analyzer counts as one request. *)
Lemma analyzer_counts (env : Env) wid text le pr (s : State) :
  st_total_requests (exec (WorkerAnalyzer.analyze_worker env wid text le pr) s)
  = st_total_requests s + 1.
Proof.
  unfold WorkerAnalyzer.analyze_worker, WorkerAnalyzer.call_and_parse,
    WorkerAnalyzer.on_failure, WorkerAnalyzer.bump_requests, WorkerAnalyzer.add_cost.
  run_monad.
  destruct (classify env (st_tick s) _) as [msg | it ot | it ot raw msg | it ot v];
    try reflexivity.
  destruct v; simpl; try reflexivity.
  destruct (dict_lookup _ "status"); simpl; [ | reflexivity ].
  destruct (dict_lookup _ "action"); simpl; [ | reflexivity ].
  destruct (dict_lookup _ "confidence"); reflexivity.
Qed.

(** Equations of the primitives, for rewriting a run step by step. *)
Lemma outcome_ret {A : Type} (a : A) s : outcome (ret a) s = Ret a.
Proof. reflexivity. Qed.
Lemma exec_ret {A : Type} (a : A) s : exec (ret a) s = s.
Proof. reflexivity. Qed.
Lemma outcome_gets {A : Type} (f : State -> A) s : outcome (gets f) s = Ret (f s).
Proof. reflexivity. Qed.
Lemma exec_gets {A : Type} (f : State -> A) s : exec (gets f) s = s.
Proof. reflexivity. Qed.
Lemma outcome_modify f s : outcome (modify f) s = Ret tt.
Proof. reflexivity. Qed.
Lemma exec_modify f s : exec (modify f) s = f s.
Proof. reflexivity. Qed.
Lemma outcome_emit ev s : outcome (emit ev) s = Ret tt.
Proof. reflexivity. Qed.
Lemma exec_emit ev s : exec (emit ev) s = set_trace (st_trace s ++ [ev]) s.
Proof. reflexivity. Qed.
Lemma outcome_ask {A : Type} (f : nat -> A) s : outcome (ask f) s = Ret (f (st_tick s)).
Proof. reflexivity. Qed.
Lemma exec_ask {A : Type} (f : nat -> A) s : exec (ask f) s = set_tick (S (st_tick s)) s.
Proof. reflexivity. Qed.
Lemma outcome_mutate id f s : outcome (mutate_worker id f) s = Ret tt.
Proof. reflexivity. Qed.
Lemma exec_mutate id f s :
  exec (mutate_worker id f) s = set_workers (workers_update (st_workers s) id f) s.
Proof. reflexivity. Qed.

Create Rewrite HintDb run.

#[local] Hint Rewrite @outcome_bind @exec_bind @outcome_ret @exec_ret @outcome_gets
  @exec_gets outcome_modify exec_modify outcome_emit exec_emit @outcome_ask @exec_ask
  outcome_mutate exec_mutate : run.

Ltac step := repeat (autorewrite with run; cbn beta iota).

(** [send_keys] never raises. *)
Lemma send_keys_returns (env : Env) window keys s :
  exists b, outcome (TmuxInterface.send_keys env window keys) s = Ret b.
Proof.
  unfold TmuxInterface.send_keys, subprocess_run. run_monad.
  destruct keys; simpl; try (eexists; reflexivity).
  destruct (run_tmux env (st_tick s) _); simpl; eexists; reflexivity.
Qed.

Lemma outcome_log_decision env wid analysis s :
  outcome (ActionExecutor._log_decision env wid analysis) s = Ret tt.
Proof. reflexivity. Qed.

Lemma outcome_logging lv msg s : outcome (logging lv msg) s = Ret tt.
Proof. reflexivity. Qed.

#[local] Hint Rewrite outcome_log_decision outcome_logging : run.

(** [execute] can only fail on a decision without a [reasoning]. *)
Lemma execute_returns (env : Env) wid window analysis s :
  dict_lookup analysis "reasoning" <> None ->
  exists b, outcome (ActionExecutor.execute env wid window analysis) s = Ret b.
Proof.
  intros Hr. destruct (dict_lookup analysis "reasoning") as [r | ] eqn:E;
    [ clear Hr | contradiction ].
  unfold ActionExecutor.execute. step.
  destruct (py_eq_str _ "none"); [ eexists; reflexivity | ].
  destruct (py_eq_str _ "intervene").
  { unfold getitem. rewrite E. step. eexists; reflexivity. }
  step. destruct (negb _); step; [ eexists; reflexivity | ].
  destruct (py_in_strs _ _); [ | eexists; reflexivity ].
  unfold getitem. rewrite E. step.
  match goal with
  | |- context [outcome (TmuxInterface.send_keys env window ?k) ?s0] =>
      destruct (send_keys_returns env window k s0) as [b Hb]; rewrite Hb
  end.
  step. destruct b; step; eexists; reflexivity.
Qed.

(** "Update stuck count": a [stuck] or [confused] status adds one to the
    streak and logs the escalation entry once the streak is at least 3;
    any other status resets the streak to 0. *)
Lemma update_stuck_count_spec wid analysis st w s :
  worker_of wid s = Some w ->
  dict_lookup analysis "status" = Some st ->
  let m := LLMMonitorDaemon.update_stuck_count wid analysis in
  let n := if stuck_like st then consecutive_stuck_count w + 1 else 0 in
  outcome m s = Ret tt /\
  worker_of wid (exec m s) = Some (WorkerStateM.set_stuck_count n w) /\
  escalations wid (exec m s)
  = escalations wid s
    ++ (if stuck_like st && (n >=? 3)
        then [EvLog ERROR (MsgStuckInARow wid n)] else []) /\
  st_config (exec m s) = st_config s /\
  st_total_requests (exec m s) = st_total_requests s.
Proof.
  intros Hw Hst m n. subst m n. unfold worker_of in *.
  unfold LLMMonitorDaemon.update_stuck_count, getitem. rewrite Hst.
  unfold stuck_like. step.
  destruct (py_in_strs st ["stuck"; "confused"]); step.
  - simpl st_workers. rewrite workers_get_update_same, Hw. simpl option_map.
    cbn iota. simpl consecutive_stuck_count.
    destruct (consecutive_stuck_count w + 1 >=? 3) eqn:E; step.
    + simpl. rewrite workers_get_update_same, Hw. simpl.
      repeat split; try reflexivity.
      unfold escalations. simpl. apply filter_snoc_in. simpl. apply String.eqb_refl.
    + simpl. rewrite workers_get_update_same, Hw. simpl.
      repeat split; try reflexivity.
      unfold escalations. rewrite app_nil_r. reflexivity.
  - simpl. rewrite workers_get_update_same, Hw. simpl.
    repeat split; try reflexivity.
    unfold escalations. rewrite app_nil_r. reflexivity.
Qed.

(** "Execute action if needed": the executor is called only for an action
    other than [none]; whatever it does, it leaves the registry, the
    configuration, the request count and the escalation entries alone. *)
Lemma dispatch_frame (env : Env) wid window analysis (act : pyval) id s :
  let m := (if negb (py_eq_str act "none")
            then ActionExecutor.execute env wid window analysis ;;; ret tt
            else ret tt) in
  st_workers (exec m s) = st_workers s /\
  escalations id (exec m s) = escalations id s /\
  passes id (exec m s) = passes id s /\
  st_config (exec m s) = st_config s /\
  st_total_requests (exec m s) = st_total_requests s.
Proof.
  intros m. subst m.
  destruct (negb (py_eq_str act "none")); [ | repeat split; reflexivity ].
  repeat split.
  - apply (preserves_bind st_workers); [ apply execute_keeps_workers | intros; frame ].
  - apply (preserves_bind (escalations id));
      [ apply execute_keeps_escalations | intros; frame ].
  - apply (preserves_bind (passes id)); [ apply execute_keeps_passes | intros; frame ].
  - apply (preserves_bind st_config); [ apply execute_keeps_config | intros; frame ].
  - apply (preserves_bind st_total_requests);
      [ apply execute_keeps_requests | intros; frame ].
Qed.

Lemma dispatch_returns (env : Env) wid window analysis (act : pyval) s :
  dict_lookup analysis "reasoning" <> None ->
  outcome (if negb (py_eq_str act "none")
           then ActionExecutor.execute env wid window analysis ;;; ret tt
           else ret tt) s = Ret tt.
Proof.
  intros Hr. destruct (negb (py_eq_str act "none")); [ | reflexivity ].
  rewrite outcome_bind.
  destruct (execute_returns env wid window analysis s Hr) as [b ->]. reflexivity.
Qed.

(** What a pass does with the analyzer's answer, when the answer carries
    a [reasoning]: it returns, stores the answer and its raw status on the
    worker, and updates the streak as "Update stuck count" says. *)
Lemma apply_analysis_spec (env : Env) wid window analysis st act w s :
  worker_of wid s = Some w ->
  dict_lookup analysis "status" = Some st ->
  dict_lookup analysis "action" = Some act ->
  dict_lookup analysis "reasoning" <> None ->
  let m := LLMMonitorDaemon.apply_analysis env wid window analysis in
  let n := if stuck_like st then consecutive_stuck_count w + 1 else 0 in
  outcome m s = Ret tt /\
  worker_of wid (exec m s)
  = Some (mk_worker (worker_id w) (window_num w) (last_activity w)
                    (Some analysis) st n) /\
  escalations wid (exec m s)
  = escalations wid s
    ++ (if stuck_like st && (n >=? 3)
        then [EvLog ERROR (MsgStuckInARow wid n)] else []) /\
  st_config (exec m s) = st_config s /\
  st_total_requests (exec m s) = st_total_requests s.
Proof.
  intros Hw Hst Hact Hr m n. subst m.
  unfold LLMMonitorDaemon.apply_analysis, getitem. rewrite Hst, Hact. step.
  match goal with
  | |- context [outcome (if _ then _ else _) ?s0] => set (s2 := s0)
  end.
  set (w2 := mk_worker (worker_id w) (window_num w) (last_activity w)
                       (Some analysis) st (consecutive_stuck_count w)).
  assert (Hw2 : worker_of wid s2 = Some w2).
  { unfold worker_of, s2. simpl.
    rewrite !workers_get_update_same. unfold worker_of in Hw. rewrite Hw.
    reflexivity. }
  rewrite (dispatch_returns env wid window analysis act s2 Hr).
  destruct (dispatch_frame env wid window analysis act wid s2)
    as (Fw & Fe & _ & Fc & Fr).
  set (s3 := exec _ s2) in *.
  assert (Hw3 : worker_of wid s3 = Some w2).
  { unfold worker_of. rewrite Fw. exact Hw2. }
  destruct (update_stuck_count_spec wid analysis st w2 s3 Hw3 Hst)
    as (Ho & Hwk & Hesc & Hcfg & Hreq).
  repeat split.
  - exact Ho.
  - rewrite Hwk. reflexivity.
  - rewrite Hesc, Fe. reflexivity.
  - rewrite Hcfg, Fc. reflexivity.
  - rewrite Hreq, Fr. reflexivity.
Qed.

Lemma run_bind {A B : Type} (m : M A) (k : A -> M B) (s : State) :
  bind m k s
  = match outcome m s with
    | Ret a => k a (exec m s)
    | Raise e => (Raise e, exec m s)
    end.
Proof. unfold outcome, exec, bind. destruct (m s) as [[a | e] s']; reflexivity. Qed.

Lemma capture_pane_returns (env : Env) window lines s :
  exists o, outcome (TmuxInterface.capture_pane env window lines) s = Ret o.
Proof.
unfold TmuxInterface.capture_pane, subprocess_run. run_monad.
destruct (run_tmux env (st_tick s) _) as [rc out | e]; simpl;
  [ destruct (rc =? 0) | ]; eexists; reflexivity.
Qed.

(** Side conditions about another worker's entry or events. *)
Ltac other_side :=
  intros;
  unfold send_keys_calls, escalations, passes, worker_of;
  first [ reflexivity
        | simpl; apply workers_get_update_other; assumption
        | simpl; apply filter_snoc_out; first [ reflexivity | simpl; apply String.eqb_neq; assumption ] ].

Ltac full_frame :=
  unfold LLMMonitorDaemon.apply_analysis, LLMMonitorDaemon.update_stuck_count,
    mutate_worker,
    TmuxInterface.capture_pane, TmuxInterface.send_keys, subprocess_run,
    WorkerAnalyzer.analyze_worker, WorkerAnalyzer.call_and_parse,
    WorkerAnalyzer.on_failure, WorkerAnalyzer.bump_requests, WorkerAnalyzer.add_cost,
    ActionExecutor.execute, ActionExecutor._log_decision,
    ActionExecutor.append_human, ActionExecutor.append_json,
    datetime_now, logging, emit, getitem, setitem;
  repeat first
    [ apply preserves_ret
    | apply preserves_raise
    | apply preserves_gets
    | apply preserves_bind; [ | intros ]
    | apply preserves_try; [ | intros ]
    | apply preserves_modify; solve [ other_side ]
    | apply preserves_ask; solve [ other_side ]
    | match goal with
      | |- preserves _ (if ?b then _ else _) => destruct b
      | |- preserves _ (match ?x with _ => _ end) => destruct x
      | |- preserves _ (let _ := _ in _) => cbv zeta
      end ].

(** A pass over one worker does not touch another worker's entry. *)
Lemma analyze_worker_keeps_others (env : Env) id id' :
  id <> id' -> preserves (worker_of id') (LLMMonitorDaemon.analyze_worker env id).
Proof. intros Hneq. unfold LLMMonitorDaemon.analyze_worker. full_frame. Qed.

(** ... and is not a pass over another worker. *)
Lemma analyze_worker_keeps_other_passes (env : Env) id id' :
  id <> id' -> preserves (passes id') (LLMMonitorDaemon.analyze_worker env id).
Proof. intros Hneq. unfold LLMMonitorDaemon.analyze_worker. full_frame. Qed.

Lemma analyze_worker_keeps_config (env : Env) id :
  preserves st_config (LLMMonitorDaemon.analyze_worker env id).
Proof. unfold LLMMonitorDaemon.analyze_worker. full_frame. Qed.

(** The set of registered workers never changes during a pass. *)
Lemma analyze_worker_keeps_keys (env : Env) id :
  preserves (fun s => map fst (st_workers s)) (LLMMonitorDaemon.analyze_worker env id).
Proof.
  unfold LLMMonitorDaemon.analyze_worker.
  unfold LLMMonitorDaemon.apply_analysis, LLMMonitorDaemon.update_stuck_count,
    mutate_worker,
    TmuxInterface.capture_pane, TmuxInterface.send_keys, subprocess_run,
    WorkerAnalyzer.analyze_worker, WorkerAnalyzer.call_and_parse,
    WorkerAnalyzer.on_failure, WorkerAnalyzer.bump_requests, WorkerAnalyzer.add_cost,
    ActionExecutor.execute, ActionExecutor._log_decision,
    ActionExecutor.append_human, ActionExecutor.append_json,
    datetime_now, logging, emit, getitem, setitem.
  repeat first
    [ apply preserves_ret
    | apply preserves_raise
    | apply preserves_gets
    | apply preserves_bind; [ | intros ]
    | apply preserves_try; [ | intros ]
    | apply preserves_modify;
      solve [ intros; first [ reflexivity | simpl; apply workers_update_keys ] ]
    | apply preserves_ask; solve [ intros; reflexivity ]
    | match goal with
      | |- preserves _ (if ?b then _ else _) => destruct b
      | |- preserves _ (match ?x with _ => _ end) => destruct x
      | |- preserves _ (let _ := _ in _) => cbv zeta
      end ].
Qed.

(** Every call of [analyze_worker] is one pass over its worker, however
    the call ends. *)
Lemma analyze_worker_is_one_pass (env : Env) id s :
  passes id (exec (LLMMonitorDaemon.analyze_worker env id) s)
  = passes id s ++ [EvAnalyzeWorker id].
Proof.
  unfold LLMMonitorDaemon.analyze_worker.
  rewrite exec_bind, outcome_emit.
  match goal with
  | |- passes id (exec ?rest ?s0) = _ =>
      assert (F : preserves (passes id) rest) by full_frame;
      rewrite (F s0)
  end.
  rewrite exec_emit. unfold passes. simpl.
  apply filter_snoc_in. simpl. apply String.eqb_refl.
Qed.

Lemma update_keeps_last_analysis ws id wid f :
  (forall w, last_analysis (f w) = last_analysis w) ->
  option_map last_analysis (workers_get (workers_update ws id f) wid)
  = option_map last_analysis (workers_get ws wid).
Proof.
  intros Hf. induction ws as [ | [k w] ws IH]; simpl; [ reflexivity | ].
  destruct (String.eqb k id) eqn:E; simpl.
  - destruct (String.eqb k wid); simpl; [ rewrite Hf | ]; reflexivity.
  - destruct (String.eqb k wid); [ reflexivity | exact IH ].
Qed.

(** The answer of the analyzer is stored on the worker before anything
    else is done with it, and stays there. *)
Lemma apply_analysis_records (env : Env) wid window analysis w s :
  worker_of wid s = Some w ->
  option_map last_analysis
             (worker_of wid (exec (LLMMonitorDaemon.apply_analysis env wid window analysis) s))
  = Some (Some analysis).
Proof.
  intros Hw. unfold LLMMonitorDaemon.apply_analysis.
  rewrite exec_bind, outcome_mutate.
  match goal with
  | |- option_map _ (worker_of wid (exec ?rest ?s0)) = _ =>
      assert (F : preserves (fun s => option_map last_analysis (worker_of wid s)) rest);
      [ | rewrite (F s0) ]
  end.
  - unfold LLMMonitorDaemon.update_stuck_count, mutate_worker,
      TmuxInterface.send_keys, subprocess_run,
      ActionExecutor.execute, ActionExecutor._log_decision,
      ActionExecutor.append_human, ActionExecutor.append_json,
      datetime_now, logging, emit, getitem.
    repeat first
      [ apply preserves_ret
      | apply preserves_raise
      | apply preserves_gets
      | apply preserves_bind; [ | intros ]
      | apply preserves_try; [ | intros ]
      | apply preserves_modify;
        solve [ intros; unfold worker_of;
                first [ reflexivity
                      | simpl; apply update_keeps_last_analysis; intros; reflexivity ] ]
      | apply preserves_ask; solve [ intros; reflexivity ]
      | match goal with
        | |- preserves _ (if ?b then _ else _) => destruct b
        | |- preserves _ (match ?x with _ => _ end) => destruct x
        | |- preserves _ (let _ := _ in _) => cbv zeta
        end ].
  - rewrite exec_mutate. unfold worker_of in *. simpl.
    rewrite workers_get_update_same, Hw. reflexivity.
Qed.

(** A pass that reaches the classifier is: the registered worker's pane
    captured, the analyzer's answer (which has a status and an action)
    obtained in a state where the worker, the escalation entries and the
    configuration are as before, and that answer applied. *)
Lemma analyze_worker_classified (env : Env) wid s :
  st_total_requests (exec (LLMMonitorDaemon.analyze_worker env wid) s)
  <> st_total_requests s ->
  exists w analysis st act s_mid,
    worker_of wid s = Some w /\
    worker_of wid s_mid = Some w /\
    escalations wid s_mid = escalations wid s /\
    st_config s_mid = st_config s /\
    dict_lookup analysis "status" = Some st /\
    dict_lookup analysis "action" = Some act /\
    LLMMonitorDaemon.analyze_worker env wid s
    = LLMMonitorDaemon.apply_analysis env wid (window_num w) analysis s_mid.
Proof.
  unfold exec at 1. unfold LLMMonitorDaemon.analyze_worker.
  rewrite run_bind, outcome_emit, exec_emit.
  rewrite run_bind, outcome_gets, exec_gets.
  set (sa := set_trace _ s).
  destruct (negb (enabled (st_config sa))); [ intros H; exfalso; apply H; reflexivity | ].
  rewrite run_bind, outcome_gets, exec_gets.
  change (st_workers sa) with (st_workers s).
  destruct (workers_get (st_workers s) wid) as [w | ] eqn:Hw;
    [ | intros H; exfalso; apply H; reflexivity ].
  rewrite run_bind.
  destruct (capture_pane_returns env (window_num w) (max_context_lines (st_config sa)) sa)
    as [o Ho].
  rewrite Ho.
  set (sb := exec (TmuxInterface.capture_pane env _ _) sa).
  assert (Fw : st_workers sb = st_workers s)
    by exact (capture_pane_keeps_workers env _ _ sa).
  assert (Fc : st_config sb = st_config s)
    by exact (capture_pane_keeps_config env _ _ sa).
  assert (Fr : st_total_requests sb = st_total_requests s)
    by exact (capture_pane_keeps_requests env _ _ sa).
  assert (Fe : escalations wid sb = escalations wid s).
  { unfold sb. rewrite (capture_pane_keeps_escalations env wid _ _ sa).
    unfold escalations, sa. simpl. apply filter_snoc_out. reflexivity. }
  destruct o as [text | ]; [ destruct text as [ | c text] | ];
    try (intros H; exfalso; apply H; simpl; exact Fr).
  intros _.
  rewrite run_bind, outcome_ask, exec_ask.
  rewrite run_bind, outcome_ask, exec_ask.
  rewrite run_bind.
  match goal with
  | |- context [outcome (WorkerAnalyzer.analyze_worker env wid ?t ?le ?pr) ?s0] =>
      destruct (analyzer_returns env wid t le pr s0) as (d & st & act & Hd & Hst & Hact);
      rewrite Hd;
      exists w, d, st, act, (exec (WorkerAnalyzer.analyze_worker env wid t le pr) s0)
  end.
  repeat split; try assumption.
  - unfold worker_of.
    rewrite (analyzer_keeps_workers env wid _ _ _ _). simpl. rewrite Fw. exact Hw.
  - rewrite (analyzer_keeps_escalations env wid wid _ _ _ _).
    unfold escalations in *. simpl. exact Fe.
  - rewrite (analyzer_keeps_config env wid _ _ _ _). simpl. exact Fc.
Qed.

(* ===================================================================== *)
(** ** The streak and the escalation entry *)
(* ===================================================================== *)

(** C5 (as the code has it): a decision with status [error] -- the one
    synthesized after a classifier time-out carries a [reasoning] -- does
    not count towards escalation: processing it returns, adds no escalation
    entry, and resets [consecutive_stuck_count] to 0 whatever it was. *)
Theorem error_decision_resets_streak
        (env : Env) (wid : string) (window : Z) (analysis : pydict) (act : pyval)
        (w : WorkerState) (s : State) :
  worker_of wid s = Some w ->
  dict_lookup analysis "status" = Some (PStr "error") ->
  dict_lookup analysis "action" = Some act ->
  dict_lookup analysis "reasoning" <> None ->
  let m := LLMMonitorDaemon.apply_analysis env wid window analysis in
  outcome m s = Ret tt /\
  option_map consecutive_stuck_count (worker_of wid (exec m s)) = Some 0 /\
  option_map status (worker_of wid (exec m s)) = Some (PStr "error") /\
  escalations wid (exec m s) = escalations wid s.
Proof.
  intros Hw Hst Hact Hr m.
  destruct (apply_analysis_spec env wid window analysis (PStr "error") act w s
                                Hw Hst Hact Hr)
    as (Ho & Hwk & Hesc & _ & _).
  fold m in Ho, Hwk, Hesc. simpl in Hwk, Hesc.
  split; [ exact Ho | ].
  split; [ rewrite Hwk; reflexivity | ].
  split; [ rewrite Hwk; reflexivity | ].
  rewrite Hesc. apply app_nil_r.
Qed.

Lemma error_decision_witness :
  let env := Scenario.steady (Scenario.every 400) Scenario.prompt_pane
                             (LLMRaises "Request timed out.") in
  let s := Scenario.fresh_state Scenario.with_key
             [("doc-1", Scenario.worker_at "doc-1" 1 "stuck" 2)] in
  let analysis := WorkerAnalyzer.error_analysis "Analysis failed: Request timed out." in
  let m := LLMMonitorDaemon.apply_analysis env "doc-1" 1 analysis in
  outcome m s = Ret tt /\
  option_map consecutive_stuck_count (worker_of "doc-1" (exec m s)) = Some 0 /\
  option_map status (worker_of "doc-1" (exec m s)) = Some (PStr "error") /\
  escalations "doc-1" (exec m s) = escalations "doc-1" s.
Proof.
  intros env s analysis m.
  apply (error_decision_resets_streak
           env "doc-1" 1 analysis (PStr "none")
           (Scenario.worker_at "doc-1" 1 "stuck" 2) s);
    [ reflexivity | reflexivity | reflexivity | discriminate ].
Defined.

(** C5 (the claim fails): worker ["doc-1"] has been classified [stuck]
    twice; the classifier call then times out.  The pass stores the
    synthesized [error] decision and the streak goes from 2 to 0: it is
    not left unchanged. *)
Lemma timeout_changes_the_streak :
  let env := Scenario.steady (Scenario.every 400) Scenario.prompt_pane
                             (LLMRaises "Request timed out.") in
  let s := Scenario.fresh_state Scenario.with_key
             [("doc-1", Scenario.worker_at "doc-1" 1 "stuck" 2)] in
  let s' := exec (LLMMonitorDaemon.analyze_worker env "doc-1") s in
  option_map consecutive_stuck_count (worker_of "doc-1" s) = Some 2 /\
  option_map status (worker_of "doc-1" s') = Some (PStr "error") /\
  option_map consecutive_stuck_count (worker_of "doc-1" s') = Some 0 /\
  option_map consecutive_stuck_count (worker_of "doc-1" s')
  <> option_map consecutive_stuck_count (worker_of "doc-1" s).
Proof.
  vm_compute. repeat split; try reflexivity. discriminate.
Qed.

(** One pass that classifies the worker as stuck or confused (with a
    justification) returns, adds one to the streak, and logs the escalation
    entry exactly when the streak has reached 3. *)
Lemma stuck_pass (env : Env) wid s w :
  worker_of wid s = Some w ->
  stuck_result env wid s ->
  let m := LLMMonitorDaemon.analyze_worker env wid in
  let n := consecutive_stuck_count w + 1 in
  outcome m s = Ret tt /\
  option_map consecutive_stuck_count (worker_of wid (exec m s)) = Some n /\
  escalations wid (exec m s)
  = escalations wid s ++ (if n >=? 3 then [EvLog ERROR (MsgStuckInARow wid n)] else []) /\
  st_config (exec m s) = st_config s.
Proof.
  intros Hw (Hreq & wx & a & Hwx & Hla & Hstuck & Hreason) m n.
  destruct (analyze_worker_classified env wid s) as
      (w1 & analysis & st & act & s_mid & Hw1 & Hmid & Fe & Fc & Hst & Hact & Heq).
  { rewrite Hreq. lia. }
  rewrite Hw in Hw1. injection Hw1 as <-.
  assert (Ho : outcome m s
               = outcome (LLMMonitorDaemon.apply_analysis env wid (window_num w) analysis)
                         s_mid)
    by (unfold outcome, m; rewrite Heq; reflexivity).
  assert (He : exec m s
               = exec (LLMMonitorDaemon.apply_analysis env wid (window_num w) analysis)
                      s_mid)
    by (unfold exec, m; rewrite Heq; reflexivity).
  pose proof (apply_analysis_records env wid (window_num w) analysis w s_mid Hmid) as Hrec.
  rewrite <- He in Hrec. fold m in Hwx. rewrite Hwx in Hrec. simpl in Hrec.
  rewrite Hla in Hrec. injection Hrec as ->.
  unfold dict_get in Hstuck. rewrite Hst in Hstuck.
  destruct (apply_analysis_spec env wid (window_num w) analysis st act w s_mid
                                Hmid Hst Hact Hreason)
    as (Ho' & Hwk & Hesc & Hcfg & _).
  rewrite Hstuck in Hwk, Hesc. simpl in Hesc.
  rewrite Ho, He.
  split; [ exact Ho' | ].
  split; [ rewrite Hwk; reflexivity | ].
  split; [ rewrite Hesc, Fe; reflexivity | ].
  rewrite Hcfg. exact Fc.
Qed.

(** C8 (as the code has it): starting from a streak of 0, three passes in
    a row over one worker -- no activity of that worker in between -- that
    each classify it as stuck or confused (with a justification) log exactly
    one escalation entry, at level ERROR and during the third pass; every
    pass returns, the configuration is untouched and the worker is still
    registered. *)
Theorem three_stuck_results_escalate_once
        (env : Env) (wid : string) (w0 : WorkerState) (s0 : State) :
  worker_of wid s0 = Some w0 ->
  consecutive_stuck_count w0 = 0 ->
  let pass := LLMMonitorDaemon.analyze_worker env wid in
  let s1 := exec pass s0 in
  let s2 := exec pass s1 in
  let s3 := exec pass s2 in
  stuck_result env wid s0 ->
  stuck_result env wid s1 ->
  stuck_result env wid s2 ->
  (outcome pass s0 = Ret tt /\ outcome pass s1 = Ret tt /\ outcome pass s2 = Ret tt) /\
  escalations wid s1 = escalations wid s0 /\
  escalations wid s2 = escalations wid s0 /\
  escalations wid s3 = escalations wid s0 ++ [EvLog ERROR (MsgStuckInARow wid 3)] /\
  st_config s3 = st_config s0 /\
  option_map consecutive_stuck_count (worker_of wid s3) = Some 3.
Proof.
  intros Hw0 Hc0 pass s1 s2 s3 R0 R1 R2.
  destruct (stuck_pass env wid s0 w0 Hw0 R0) as (O0 & C1 & E1 & F1).
  fold pass in O0, C1, E1, F1. fold s1 in C1, E1, F1.
  rewrite Hc0 in C1, E1. simpl in C1, E1. rewrite app_nil_r in E1.
  destruct (worker_of wid s1) as [w1 | ] eqn:Hw1; [ | discriminate ].
  injection C1 as C1.
  destruct (stuck_pass env wid s1 w1 Hw1 R1) as (O1 & C2 & E2 & F2).
  fold pass in O1, C2, E2, F2. fold s2 in C2, E2, F2.
  rewrite C1 in C2, E2. simpl in C2, E2. rewrite app_nil_r in E2.
  destruct (worker_of wid s2) as [w2 | ] eqn:Hw2; [ | discriminate ].
  injection C2 as C2.
  destruct (stuck_pass env wid s2 w2 Hw2 R2) as (O2 & C3 & E3 & F3).
  fold pass in O2, C3, E3, F3. fold s3 in C3, E3, F3.
  rewrite C2 in C3, E3. simpl in C3, E3.
  repeat split; try assumption.
  - rewrite E2. exact E1.
  - rewrite E3, E2, E1. reflexivity.
  - rewrite F3, F2. exact F1.
Qed.

Lemma three_stuck_results_witness :
  let env := Scenario.steady (Scenario.every 400) Scenario.prompt_pane
                             (Scenario.answer "confused" "intervene") in
  let s0 := Scenario.fresh_state Scenario.with_key
              [("build-1", Scenario.worker_at "build-1" 1 "STARTING" 0)] in
  let pass := LLMMonitorDaemon.analyze_worker env "build-1" in
  escalations "build-1" (exec pass (exec pass s0)) = [] /\
  escalations "build-1" (exec pass (exec pass (exec pass s0)))
  = [EvLog ERROR (MsgStuckInARow "build-1" 3)].
Proof.
  intros env s0 pass.
  assert (R : forall s w a,
             st_total_requests (exec pass s) = st_total_requests s + 1 ->
             worker_of "build-1" (exec pass s) = Some w ->
             last_analysis w = Some a ->
             stuck_like (dict_get a "status") = true ->
             dict_lookup a "reasoning" <> None ->
             stuck_result env "build-1" s).
  { intros s w a H1 H2 H3 H4 H5. split; [ exact H1 | ]. exists w, a. tauto. }
  destruct (three_stuck_results_escalate_once
              env "build-1" (Scenario.worker_at "build-1" 1 "STARTING" 0) s0
              eq_refl eq_refl)
    as (_ & _ & E2 & E3 & _).
  - eapply R; [ vm_compute; reflexivity | vm_compute; reflexivity | reflexivity
              | reflexivity | discriminate ].
  - eapply R; [ vm_compute; reflexivity | vm_compute; reflexivity | reflexivity
              | reflexivity | discriminate ].
  - eapply R; [ vm_compute; reflexivity | vm_compute; reflexivity | reflexivity
              | reflexivity | discriminate ].
  - split; [ exact E2 | exact E3 ].
Defined.

(** C8 (the claim fails): the worker is classified [stuck] on three
    stale checks in a row, with no other status in between, but its log file
    is written to between the second and the third.  That activity resets
    the streak, and no escalation entry is ever logged. *)
Lemma touch_between_stuck_results_hides_escalation :
  let env := Scenario.steady (Scenario.every 400) Scenario.prompt_pane
                             (Scenario.answer "stuck" "none") in
  let s0 := Scenario.fresh_state Scenario.with_key
              [("build-1", Scenario.worker_at "build-1" 1 "STARTING" 0)] in
  let tick := LLMMonitorDaemon.check_stale_workers env in
  let run := tick ;;; tick ;;;
             LLMMonitorDaemon.on_worker_log_update env "build-1" ;;; tick in
  outcome run s0 = Ret tt /\
  reported_statuses "build-1" (st_trace (exec run s0))
  = [PStr "stuck"; PStr "stuck"; PStr "stuck"] /\
  escalations "build-1" (exec run s0) = [] /\
  option_map consecutive_stuck_count (worker_of "build-1" (exec run s0)) = Some 1.
Proof.
  vm_compute. repeat split; reflexivity.
Qed.

(* ===================================================================== *)
(** ** Recording of decisions *)
(* ===================================================================== *)

(** Whatever the decision and however the call ends, [execute] appends
    exactly one record to each log, and starts with it: the logs only grow
    at their end. *)
Lemma execute_appends_one_record (env : Env) wid window analysis s :
  let m := ActionExecutor.execute env wid window analysis in
  let d := ActionExecutor.make_decision (clock env (st_tick s)) wid analysis in
  st_decisions_log (exec m s) = st_decisions_log s ++ [ActionExecutor.human_line d] /\
  st_json_log (exec m s) = st_json_log s ++ [d].
Proof.
  intros m d. subst m. unfold ActionExecutor.execute.
  rewrite exec_bind, outcome_log_decision.
  match goal with
  | |- st_decisions_log (exec ?rest ?s0) = _ /\ _ =>
      assert (F1 : preserves st_decisions_log rest);
      [ | assert (F2 : preserves st_json_log rest);
          [ | rewrite (F1 s0), (F2 s0) ] ]
  end.
  - unfold TmuxInterface.send_keys, subprocess_run, logging, emit, getitem. frame.
  - unfold TmuxInterface.send_keys, subprocess_run, logging, emit, getitem. frame.
  - unfold exec. rewrite log_decision_appends. split; reflexivity.
Qed.

(** C1 (the code departs from the claim): a pass whose decision has action
    [none] never reaches the executor.  Here the classifier is consulted once
    and answers [working]/[none]; the worker's status is updated, and both
    audit logs are still empty afterwards. *)
Theorem none_decision_is_not_recorded :
  let env := Scenario.steady (Scenario.every 400) Scenario.prompt_pane
                             (Scenario.answer "working" "none") in
  let s := Scenario.fresh_state Scenario.with_key
             [("doc-1", Scenario.worker_at "doc-1" 1 "STARTING" 0)] in
  let s' := exec (LLMMonitorDaemon.analyze_worker env "doc-1") s in
  st_total_requests s' = 1 /\
  reported_statuses "doc-1" (st_trace s') = [PStr "working"] /\
  option_map status (worker_of "doc-1" s') = Some (PStr "working") /\
  st_decisions_log s' = [] /\
  st_json_log s' = [].
Proof.
  vm_compute. repeat split; reflexivity.
Qed.

(* ===================================================================== *)
(** ** The stale check *)
(* ===================================================================== *)

Section Advances.

Lemma advances_ret {A : Type} (a : A) : advances (ret a).
Proof. intros s. apply Nat.le_refl. Qed.

Lemma advances_raise {A : Type} (e : exn) : advances (@raise A e).
Proof. intros s. apply Nat.le_refl. Qed.

Lemma advances_gets {A : Type} (f : State -> A) : advances (gets f).
Proof. intros s. apply Nat.le_refl. Qed.

Lemma advances_modify (f : State -> State) :
  (forall s, st_tick (f s) = st_tick s) -> advances (modify f).
Proof. intros H s. unfold exec, modify; simpl. rewrite H. apply Nat.le_refl. Qed.

Lemma advances_ask {A : Type} (f : nat -> A) : advances (ask f).
Proof. intros s. unfold exec, ask; simpl. apply Nat.le_succ_diag_r. Qed.

Lemma advances_bind {A B : Type} (m : M A) (k : A -> M B) :
  advances m -> (forall a, advances (k a)) -> advances (bind m k).
Proof.
  intros Hm Hk s. rewrite exec_bind.
  destruct (outcome m s); [ | apply Hm ].
  eapply Nat.le_trans; [ apply Hm | apply Hk ].
Qed.

Lemma advances_try {A : Type} (m : M A) (h : exn -> M A) :
  advances m -> (forall e, advances (h e)) -> advances (try_except m h).
Proof.
  intros Hm Hh s. rewrite exec_try.
  destruct (outcome m s); [ apply Hm | ].
  eapply Nat.le_trans; [ apply Hm | apply Hh ].
Qed.

End Advances.

Ltac walk_ticks :=
  unfold LLMMonitorDaemon.apply_analysis, LLMMonitorDaemon.update_stuck_count,
    mutate_worker,
    TmuxInterface.capture_pane, TmuxInterface.send_keys, subprocess_run,
    WorkerAnalyzer.analyze_worker, WorkerAnalyzer.call_and_parse,
    WorkerAnalyzer.on_failure, WorkerAnalyzer.bump_requests, WorkerAnalyzer.add_cost,
    ActionExecutor.execute, ActionExecutor._log_decision,
    ActionExecutor.append_human, ActionExecutor.append_json,
    WorkerStateM.is_stale,
    datetime_now, logging, emit, getitem, setitem;
  repeat first
    [ apply advances_ret
    | apply advances_raise
    | apply advances_gets
    | apply advances_ask
    | apply advances_bind; [ | intros ]
    | apply advances_try; [ | intros ]
    | apply advances_modify; solve [ intros; reflexivity ]
    | match goal with
      | |- advances (if ?b then _ else _) => destruct b
      | |- advances (match ?x with _ => _ end) => destruct x
      | |- advances (let _ := _ in _) => cbv zeta
      end ].

Lemma analyze_worker_advances (env : Env) id :
  advances (LLMMonitorDaemon.analyze_worker env id).
Proof. unfold LLMMonitorDaemon.analyze_worker. walk_ticks. Qed.

Lemma check_each_cons (env : Env) id rest :
  LLMMonitorDaemon.check_each env (id :: rest)
  = (LLMMonitorDaemon.check_worker env id ;;; LLMMonitorDaemon.check_each env rest).
Proof. reflexivity. Qed.

Lemma check_worker_advances (env : Env) id : advances (LLMMonitorDaemon.check_worker env id).
Proof.
  unfold LLMMonitorDaemon.check_worker.
  apply advances_bind; [ apply advances_gets | intros ws ].
  destruct (workers_get ws id); [ | apply advances_ret ].
  apply advances_bind; [ apply advances_gets | intros cfg ].
  apply advances_bind; [ walk_ticks | intros stale ].
  destruct stale; [ | apply advances_ret ].
  destruct (negb _); [ | apply advances_ret ].
  apply advances_bind; [ walk_ticks | intros _ ].
  apply analyze_worker_advances.
Qed.

Lemma check_each_advances (env : Env) ids : advances (LLMMonitorDaemon.check_each env ids).
Proof.
  induction ids as [ | id rest IH]; [ apply advances_ret | ].
  rewrite check_each_cons.
  apply advances_bind; [ apply check_worker_advances | intros _; exact IH ].
Qed.

(** Checking one worker leaves every other worker, and the count of the
    passes over it, as they were. *)
Lemma check_worker_keeps_others (env : Env) id id' :
  id <> id' ->
  preserves (worker_of id') (LLMMonitorDaemon.check_worker env id) /\
  preserves (passes id') (LLMMonitorDaemon.check_worker env id) /\
  preserves st_config (LLMMonitorDaemon.check_worker env id).
Proof.
  intros Hneq. unfold LLMMonitorDaemon.check_worker. repeat split.
  - apply preserves_bind; [ apply preserves_gets | intros ws ].
    destruct (workers_get ws id); [ | apply preserves_ret ].
    apply preserves_bind; [ apply preserves_gets | intros cfg ].
    apply preserves_bind; [ unfold WorkerStateM.is_stale; full_frame | intros stale ].
    destruct stale; [ | apply preserves_ret ].
    destruct (negb _); [ | apply preserves_ret ].
    apply preserves_bind; [ full_frame | intros _ ].
    apply analyze_worker_keeps_others, Hneq.
  - apply preserves_bind; [ apply preserves_gets | intros ws ].
    destruct (workers_get ws id); [ | apply preserves_ret ].
    apply preserves_bind; [ apply preserves_gets | intros cfg ].
    apply preserves_bind; [ unfold WorkerStateM.is_stale; full_frame | intros stale ].
    destruct stale; [ | apply preserves_ret ].
    destruct (negb _); [ | apply preserves_ret ].
    apply preserves_bind; [ full_frame | intros _ ].
    apply analyze_worker_keeps_other_passes, Hneq.
  - apply preserves_bind; [ apply preserves_gets | intros ws ].
    destruct (workers_get ws id); [ | apply preserves_ret ].
    apply preserves_bind; [ apply preserves_gets | intros cfg ].
    apply preserves_bind; [ unfold WorkerStateM.is_stale; full_frame | intros stale ].
    destruct stale; [ | apply preserves_ret ].
    destruct (negb _); [ | apply preserves_ret ].
    apply preserves_bind; [ full_frame | intros _ ].
    apply analyze_worker_keeps_config.
Qed.

Lemma check_each_keeps_passes (env : Env) wid ids :
  ~ In wid ids -> preserves (passes wid) (LLMMonitorDaemon.check_each env ids).
Proof.
  induction ids as [ | id rest IH]; intros Hnotin; [ apply preserves_ret | ].
  rewrite check_each_cons.
  apply preserves_bind.
  - apply check_worker_keeps_others. intros ->. apply Hnotin. left. reflexivity.
  - intros _. apply IH. intros Hin. apply Hnotin. right. exact Hin.
Qed.

Lemma workers_get_in ws id w : workers_get ws id = Some w -> In id (map fst ws).
Proof.
  induction ws as [ | [k w'] ws IH]; simpl; [ discriminate | ].
  destruct (String.eqb_spec k id) as [-> | Hk]; [ left; reflexivity | ].
  intros H. right. apply IH, H.
Qed.

(** The check of a registered worker reads the clock. *)
Lemma check_worker_reads_clock (env : Env) wid w s :
  worker_of wid s = Some w ->
  (st_tick s < st_tick (exec (LLMMonitorDaemon.check_worker env wid) s))%nat.
Proof.
  intros Hw. unfold LLMMonitorDaemon.check_worker, WorkerStateM.is_stale, datetime_now.
  step. unfold worker_of in Hw. rewrite Hw. step.
  set (s1 := set_tick _ s).
  match goal with
  | |- (_ < st_tick (exec ?m s1))%nat =>
      assert (A : advances m)
  end.
  { destruct (WorkerStateM.is_stale_at _ _ _); [ | apply advances_ret ].
    destruct (negb _); [ | apply advances_ret ].
    apply advances_bind; [ walk_ticks | intros _; apply analyze_worker_advances ]. }
  exact (A s1).
Qed.

(** A registered worker that [is_stale] finds stale and whose status is
    neither ["COMPLETE"] nor ["STUCK"] gets one pass. *)
Lemma check_worker_triggers (env : Env) wid w s :
  worker_of wid s = Some w ->
  py_in_strs (status w) ["COMPLETE"; "STUCK"] = false ->
  idle_beyond env w (stale_threshold (st_config s)) (st_tick s) ->
  passes wid (exec (LLMMonitorDaemon.check_worker env wid) s)
  = passes wid s ++ [EvAnalyzeWorker wid].
Proof.
  intros Hw Hstatus (Hrange & Hlate).
  unfold LLMMonitorDaemon.check_worker, WorkerStateM.is_stale, datetime_now.
  step. unfold worker_of in Hw. rewrite Hw. step.
  assert (Hstale : WorkerStateM.is_stale_at (clock env (st_tick s)) w
                                            (stale_threshold (st_config s)) = true)
    by (apply is_stale_at_within_day; assumption).
  simpl st_config. rewrite Hstale, Hstatus. simpl negb. cbn iota.
  unfold logging. step.
  rewrite analyze_worker_is_one_pass.
  unfold passes. simpl. rewrite filter_snoc_out by reflexivity. reflexivity.
Qed.

Lemma check_each_triggers (env : Env) wid w ids :
  forall s,
    NoDup ids ->
    In wid ids ->
    worker_of wid s = Some w ->
    py_in_strs (status w) ["COMPLETE"; "STUCK"] = false ->
    (forall n, (st_tick s <= n < st_tick (exec (LLMMonitorDaemon.check_each env ids) s))%nat ->
               idle_beyond env w (stale_threshold (st_config s)) n) ->
    outcome (LLMMonitorDaemon.check_each env ids) s = Ret tt ->
    passes wid (exec (LLMMonitorDaemon.check_each env ids) s)
    = passes wid s ++ [EvAnalyzeWorker wid].
Proof.
  induction ids as [ | id rest IH]; intros s Hnodup Hin Hw Hstatus Hclock Hret;
    [ contradiction | ].
  inversion Hnodup as [ | ? ? Hnotin Hnodup']; subst.
  rewrite check_each_cons in *.
  pose proof (check_worker_advances env id s) as Hadv1.
  destruct (String.eqb_spec id wid) as [-> | Hneq].
  - (* this is the worker's own turn *)
    pose proof (check_worker_reads_clock env wid w s Hw) as Hread.
    assert (Hfinal : (st_tick (exec (LLMMonitorDaemon.check_worker env wid) s)
                      <= st_tick (exec (LLMMonitorDaemon.check_worker env wid ;;;
                                        LLMMonitorDaemon.check_each env rest) s))%nat).
    { rewrite (exec_bind (LLMMonitorDaemon.check_worker env wid)
                         (fun _ => LLMMonitorDaemon.check_each env rest) s).
      destruct (outcome (LLMMonitorDaemon.check_worker env wid) s);
        [ | apply Nat.le_refl ].
      apply check_each_advances. }
    assert (Hnow : idle_beyond env w (stale_threshold (st_config s)) (st_tick s))
      by (apply Hclock; lia).
    rewrite (exec_bind (LLMMonitorDaemon.check_worker env wid)
                       (fun _ => LLMMonitorDaemon.check_each env rest) s).
    destruct (outcome (LLMMonitorDaemon.check_worker env wid) s).
    + rewrite (check_each_keeps_passes env wid rest Hnotin).
      apply (check_worker_triggers env wid w); assumption.
    + apply (check_worker_triggers env wid w); assumption.
  - (* another worker's turn: it must return, and changes nothing here *)
    destruct Hin as [-> | Hin]; [ contradiction | ].
    destruct (check_worker_keeps_others env id wid Hneq) as (Fw & Fp & Fc).
    rewrite (outcome_bind (LLMMonitorDaemon.check_worker env id)
                          (fun _ => LLMMonitorDaemon.check_each env rest) s) in Hret.
    rewrite (exec_bind (LLMMonitorDaemon.check_worker env id)
                       (fun _ => LLMMonitorDaemon.check_each env rest) s) in *.
    destruct (outcome (LLMMonitorDaemon.check_worker env id) s); [ | discriminate ].
    rewrite IH; try assumption.
    + rewrite Fp. reflexivity.
    + rewrite Fw. exact Hw.
    + intros n Hn. rewrite Fc. apply Hclock. lia.
Qed.

(** C2 (as the code has it): on a stale check that runs to its end, every
    registered worker whose status is neither ["COMPLETE"] nor ["STUCK"] and
    which the clock shows idle for more whole seconds than the threshold
    (and for less than a day) gets exactly one pass of [analyze_worker],
    whatever its streak of stuck results. *)
Theorem stale_worker_is_classified_once
        (env : Env) (wid : string) (w : WorkerState) (s : State) :
  NoDup (map fst (st_workers s)) ->
  worker_of wid s = Some w ->
  py_in_strs (status w) ["COMPLETE"; "STUCK"] = false ->
  let tick := LLMMonitorDaemon.check_stale_workers env in
  (forall n, (st_tick s <= n < st_tick (exec tick s))%nat ->
             idle_beyond env w (stale_threshold (st_config s)) n) ->
  outcome tick s = Ret tt ->
  passes wid (exec tick s) = passes wid s ++ [EvAnalyzeWorker wid].
Proof.
  intros Hnodup Hw Hstatus tick Hclock Hret.
  unfold tick, LLMMonitorDaemon.check_stale_workers in *.
  rewrite exec_bind, outcome_gets, exec_gets in *.
  rewrite outcome_bind, outcome_gets, exec_gets in Hret.
  apply (check_each_triggers env wid w); try assumption.
  apply (workers_get_in _ _ w). exact Hw.
Qed.

Lemma stale_worker_witness :
  let env := Scenario.steady (Scenario.every 400) Scenario.prompt_pane
                             (Scenario.answer "working" "none") in
  let s := Scenario.fresh_state Scenario.with_key
             [("build-1", Scenario.worker_at "build-1" 1 "COMPLETE" 0);
              ("doc-1", Scenario.worker_at "doc-1" 2 "WORKING" 2)] in
  passes "doc-1" (exec (LLMMonitorDaemon.check_stale_workers env) s)
  = [EvAnalyzeWorker "doc-1"].
Proof.
  intros env s.
  assert (Hticks : st_tick (exec (LLMMonitorDaemon.check_stale_workers env) s) = 6%nat)
    by (vm_compute; reflexivity).
  apply (stale_worker_is_classified_once
           env "doc-1" (Scenario.worker_at "doc-1" 2 "WORKING" 2) s).
  - simpl. repeat constructor; simpl; intuition discriminate.
  - reflexivity.
  - reflexivity.
  - intros n [_ Hn]. rewrite Hticks in Hn.
    do 6 (destruct n as [ | n]; [ cbv; repeat split; easy | ]).
    exfalso. lia.
  - vm_compute. reflexivity.
Defined.

(** C2 (the claim fails): worker ["doc-1"] has been idle for 400 s, the
    threshold is 300 s and its status is ["STUCK"], not ["COMPLETE"]; the
    stale check finds it stale and still skips it. *)
Lemma stale_stuck_worker_is_skipped :
  let env := Scenario.steady (Scenario.every 400) Scenario.prompt_pane
                             (Scenario.answer "working" "none") in
  let w := Scenario.worker_at "doc-1" 1 "STUCK" 0 in
  let s := Scenario.fresh_state Scenario.with_key [("doc-1", w)] in
  let tick := LLMMonitorDaemon.check_stale_workers env in
  total_microseconds (datetime_sub (clock env 0) (last_activity w)) = 400 * us_per_second /\
  stale_threshold (st_config s) = 300 /\
  outcome (WorkerStateM.is_stale env w 300) s = Ret true /\
  py_eq_str (status w) "COMPLETE" = false /\
  outcome tick s = Ret tt /\
  passes "doc-1" (exec tick s) = [] /\
  st_total_requests (exec tick s) = 0.
Proof.
  vm_compute. repeat split; reflexivity.
Qed.

(* ===================================================================== *)
(** ** More on the executor and the terminal *)
(* ===================================================================== *)

(** X6: [send_keys] never raises.  It reports [True] exactly when tmux
    exits with status 0; when the keys are not a string, [subprocess.run]
    refuses them, tmux is never started and the report is [False]. *)
Theorem send_keys_total (env : Env) (window : Z) (keys : pyval) (s : State) :
  let m := TmuxInterface.send_keys env window keys in
  outcome m s
  = Ret (match keys with
         | PStr _ => keys_accepted (run_tmux env (st_tick s)
                                             (SendKeys (st_session s) window keys))
         | _ => false
         end) /\
  (match keys with PStr _ => True | _ => st_tick (exec m s) = st_tick s end).
Proof.
  unfold TmuxInterface.send_keys, subprocess_run. run_monad.
  destruct keys; simpl; try (split; reflexivity).
  destruct (run_tmux env (st_tick s) _); simpl; split; trivial.
Qed.

(** X7: [session_exists] never raises: it answers [True] exactly when
    [tmux has-session] exits with status 0, and [False] on any exception,
    which it does not even log. *)
Theorem session_exists_total (env : Env) (s : State) :
  let m := TmuxInterface.session_exists env in
  outcome m s = Ret (keys_accepted (run_tmux env (st_tick s) (HasSession (st_session s)))) /\
  st_trace (exec m s) = st_trace s ++ [EvTmux (HasSession (st_session s))].
Proof.
  unfold TmuxInterface.session_exists, subprocess_run. run_monad.
  destruct (run_tmux env (st_tick s) _); simpl; split; reflexivity.
Qed.

(** X2: a decision with action [intervene] is never forwarded to the
    terminal: [execute] logs the alert at level WARNING -- and nothing
    else -- and returns [False]. *)
Theorem intervene_alerts_without_keystrokes
        (env : Env) (wid : string) (window : Z) (analysis : pydict) (r : pyval)
        (s : State) :
  dict_lookup analysis "action" = Some (PStr "intervene") ->
  dict_lookup analysis "reasoning" = Some r ->
  let m := ActionExecutor.execute env wid window analysis in
  outcome m s = Ret false /\
  st_trace (exec m s) = st_trace s ++ [EvLog WARNING (MsgNeedsIntervention wid r)] /\
  send_keys_calls (exec m s) = send_keys_calls s.
Proof.
  intros Hact Hr m. subst m.
  unfold ActionExecutor.execute, dict_get_default. rewrite Hact.
  unfold outcome, exec, bind at 1. rewrite log_decision_appends.
  simpl. unfold getitem. rewrite Hr. run_monad.
  repeat split; try reflexivity.
  unfold send_keys_calls. simpl. apply filter_snoc_out. reflexivity.
Qed.

Lemma intervene_witness :
  let env := Scenario.steady (Scenario.every 400) Scenario.prompt_pane
                             (LLMRaises "unused") in
  let s := Scenario.fresh_state Scenario.with_key
             [("doc-1", Scenario.worker_at "doc-1" 1 "WORKING" 0)] in
  let analysis := [("status", PStr "confused"); ("action", PStr "intervene");
                   ("reasoning", PStr "asks which repo"); ("confidence", PInt 70)] in
  let m := ActionExecutor.execute env "doc-1" 1 analysis in
  outcome m s = Ret false /\
  st_trace (exec m s)
  = [EvLog WARNING (MsgNeedsIntervention "doc-1" (PStr "asks which repo"))] /\
  send_keys_calls (exec m s) = [].
Proof.
  intros env s analysis m.
  apply (intervene_alerts_without_keystrokes
           env "doc-1" 1 analysis (PStr "asks which repo") s);
    reflexivity.
Defined.

(** X3: [execute] subscripts [analysis['reasoning']] on every path that
    announces something: for [intervene], and for [approve]/[send_keys] when
    auto-approval is on.  A decision without that key makes it raise
    [KeyError('reasoning')] -- after the record was appended to both logs,
    and before any keystroke is sent. *)
Theorem missing_reasoning_raises_after_logging
        (env : Env) (wid : string) (window : Z) (analysis : pydict) (act : pyval)
        (s : State) :
  dict_lookup analysis "action" = Some act ->
  reads_reasoning (st_config s) act = true ->
  dict_lookup analysis "reasoning" = None ->
  let m := ActionExecutor.execute env wid window analysis in
  let d := ActionExecutor.make_decision (clock env (st_tick s)) wid analysis in
  outcome m s = Raise (KeyError "reasoning") /\
  st_json_log (exec m s) = st_json_log s ++ [d] /\
  st_decisions_log (exec m s) = st_decisions_log s ++ [ActionExecutor.human_line d] /\
  st_trace (exec m s) = st_trace s.
Proof.
  intros Hact Hreads Hr m d. subst m.
  unfold ActionExecutor.execute, dict_get_default. rewrite Hact.
  unfold outcome, exec, bind at 1. rewrite log_decision_appends.
  unfold reads_reasoning in Hreads.
  destruct (py_eq_str act "none") eqn:Hnone.
  { destruct act; try discriminate. simpl in Hnone.
    apply String.eqb_eq in Hnone. subst. simpl in Hreads.
    rewrite andb_false_r in Hreads. discriminate. }
  destruct (py_eq_str act "intervene") eqn:Hint; simpl in Hreads.
  - unfold getitem. rewrite Hr. run_monad. repeat split; reflexivity.
  - apply andb_prop in Hreads. destruct Hreads as [Hauto Hin].
    run_monad. rewrite Hauto. simpl.
    unfold py_in_strs in Hin. simpl in Hin. rewrite Hin.
    rewrite Hr. simpl. repeat split; reflexivity.
Qed.

Lemma missing_reasoning_witness :
  let env := Scenario.steady (Scenario.every 400) Scenario.prompt_pane
                             (LLMRaises "unused") in
  let s := Scenario.fresh_state Scenario.with_key
             [("doc-1", Scenario.worker_at "doc-1" 1 "WORKING" 0)] in
  let analysis := [("status", PStr "stuck"); ("action", PStr "approve");
                   ("confidence", PInt 70)] in
  let m := ActionExecutor.execute env "doc-1" 1 analysis in
  outcome m s = Raise (KeyError "reasoning") /\
  List.length (st_json_log (exec m s)) = 1%nat /\
  send_keys_calls (exec m s) = [].
Proof.
  intros env s analysis m.
  destruct (missing_reasoning_raises_after_logging
              env "doc-1" 1 analysis (PStr "approve") s eq_refl eq_refl eq_refl)
    as (H1 & H2 & _ & H4).
  fold m in H1, H2, H4.
  split; [ exact H1 | ].
  split; [ rewrite H2; reflexivity | ].
  unfold send_keys_calls. rewrite H4. reflexivity.
Defined.



(** X5: a decision whose action is [none], or which has no [action] key at
    all, has no effect beyond its record: [execute] returns [True] and calls
    neither tmux nor the logger. *)
Theorem none_action_only_records
        (env : Env) (wid : string) (window : Z) (analysis : pydict) (s : State) :
  dict_lookup analysis "action" = None \/
  dict_lookup analysis "action" = Some (PStr "none") ->
  let m := ActionExecutor.execute env wid window analysis in
  let d := ActionExecutor.make_decision (clock env (st_tick s)) wid analysis in
  outcome m s = Ret true /\
  st_trace (exec m s) = st_trace s /\
  st_json_log (exec m s) = st_json_log s ++ [d] /\
  st_decisions_log (exec m s) = st_decisions_log s ++ [ActionExecutor.human_line d].
Proof.
  intros Hact m d. subst m.
  unfold ActionExecutor.execute, dict_get_default.
  unfold outcome, exec, bind at 1. rewrite log_decision_appends.
  destruct Hact as [-> | ->]; simpl; repeat split; reflexivity.
Qed.

Lemma none_action_witness :
  let env := Scenario.steady (Scenario.every 400) Scenario.prompt_pane
                             (LLMRaises "unused") in
  let s := Scenario.fresh_state Scenario.with_key
             [("doc-1", Scenario.worker_at "doc-1" 1 "WORKING" 0)] in
  let analysis := [("status", PStr "working"); ("reasoning", PStr "compiling");
                   ("confidence", PInt 95)] in
  let m := ActionExecutor.execute env "doc-1" 1 analysis in
  outcome m s = Ret true /\
  st_trace (exec m s) = [] /\
  List.length (st_json_log (exec m s)) = 1%nat.
Proof.
  intros env s analysis m.
  destruct (none_action_only_records env "doc-1" 1 analysis s (or_introl eq_refl))
    as (H1 & H2 & H3 & _).
  fold m in H1, H2, H3.
  split; [ exact H1 | ].
  split; [ exact H2 | ].
  rewrite H3. reflexivity.
Defined.

(* ===================================================================== *)
(** ** More on the analyzer *)
(* ===================================================================== *)

(** X8: every call of the analyzer counts as one request, also when it
    fails.  The cost of a response is added to the running total as soon as
    the response arrives -- so an empty or unparseable response is charged
    too -- and nothing is added when the call itself raises. *)
Theorem analyzer_accounts_every_call
        (env : Env) (wid text : string) (last_event prompt : option string) (s : State) :
  let m := WorkerAnalyzer.analyze_worker env wid text last_event prompt in
  let inp := WorkerAnalyzer.build_context wid text last_event prompt in
  st_total_requests (exec m s) = st_total_requests s + 1 /\
  st_total_cost (exec m s)
  = match classify env (st_tick s) inp with
    | LLMRaises _ => st_total_cost s
    | LLMEmpty it ot | LLMMalformed it ot _ _ | LLMParsed it ot _ =>
        (st_total_cost s + WorkerAnalyzer.cost_of it ot)%float
    end.
Proof.
  intros m inp. split; [ apply analyzer_counts | ].
  subst m. unfold WorkerAnalyzer.analyze_worker, WorkerAnalyzer.call_and_parse,
    WorkerAnalyzer.on_failure, WorkerAnalyzer.bump_requests, WorkerAnalyzer.add_cost.
  fold inp. run_monad.
  destruct (classify env (st_tick s) inp) as [msg | it ot | it ot raw msg | it ot v];
    try reflexivity.
  destruct v; simpl; try reflexivity.
  destruct (dict_lookup _ "status"); simpl; [ | reflexivity ].
  destruct (dict_lookup _ "action"); simpl; [ | reflexivity ].
  destruct (dict_lookup _ "confidence"); reflexivity.
Qed.

(** X9: the analyzer never raises, and the dictionary it returns always
    has a [status], an [action] and a [confidence]: the daemon's
    [analysis['status']] and [analysis['action']] cannot fail. *)
Theorem analyzer_result_has_its_keys
        (env : Env) (wid text : string) (last_event prompt : option string) (s : State) :
  exists d st act conf,
    outcome (WorkerAnalyzer.analyze_worker env wid text last_event prompt) s = Ret d /\
    dict_lookup d "status" = Some st /\
    dict_lookup d "action" = Some act /\
    dict_lookup d "confidence" = Some conf.
Proof.
  unfold WorkerAnalyzer.analyze_worker, WorkerAnalyzer.call_and_parse,
    WorkerAnalyzer.on_failure, WorkerAnalyzer.bump_requests, WorkerAnalyzer.add_cost.
  run_monad.
  destruct (classify env (st_tick s) _) as [msg | it ot | it ot raw msg | it ot v];
    try (do 4 eexists; simpl; repeat split; reflexivity).
  destruct v; simpl; try (do 4 eexists; simpl; repeat split; reflexivity).
  destruct (dict_lookup _ "status") eqn:Hst; simpl;
    [ | do 4 eexists; simpl; repeat split; reflexivity ].
  destruct (dict_lookup _ "action") eqn:Hact; simpl;
    [ | do 4 eexists; simpl; repeat split; reflexivity ].
  destruct (dict_lookup _ "confidence") eqn:Hconf; simpl;
    [ | do 4 eexists; simpl; repeat split; reflexivity ].
  do 4 eexists. split; [ reflexivity | ]. repeat split; eassumption.
Qed.

(** X10: a response that parses, but not to a JSON object with the keys
    [status], [action] and [confidence], is turned into the error decision
    of a failed call ("Analysis failed: ..."), not passed on. *)
Theorem ill_shaped_response_is_rejected
        (env : Env) (wid text : string) (last_event prompt : option string) (s : State)
        (it ot : Z) (v : pyval) :
  classify env (st_tick s) (WorkerAnalyzer.build_context wid text last_event prompt)
  = LLMParsed it ot v ->
  well_shaped v = false ->
  exists why,
    outcome (WorkerAnalyzer.analyze_worker env wid text last_event prompt) s
    = Ret (WorkerAnalyzer.error_analysis ("Analysis failed: " ++ why)%string).
Proof.
  intros Hc Hshape.
  unfold WorkerAnalyzer.analyze_worker, WorkerAnalyzer.call_and_parse,
    WorkerAnalyzer.on_failure, WorkerAnalyzer.bump_requests, WorkerAnalyzer.add_cost.
  run_monad. rewrite Hc. simpl.
  destruct v as [ | b | n | f | str | l | d]; simpl;
    try (eexists; reflexivity).
  simpl in Hshape.
  rewrite !lookup_after_accounting by discriminate.
  destruct (dict_lookup d "status"); simpl; [ | eexists; reflexivity ].
  destruct (dict_lookup d "action"); simpl; [ | eexists; reflexivity ].
  destruct (dict_lookup d "confidence"); simpl; [ discriminate | eexists; reflexivity ].
Qed.

Lemma ill_shaped_response_witness :
  exists why,
    outcome (WorkerAnalyzer.analyze_worker
               (Scenario.steady (Scenario.every 400) Scenario.prompt_pane
                  (LLMParsed 900 12 (PDict [("status", PStr "working");
                                            ("confidence", PInt 80)])))
               "doc-1" "make: done" None None)
            (Scenario.fresh_state Scenario.with_key [])
    = Ret (WorkerAnalyzer.error_analysis ("Analysis failed: " ++ why)%string).
Proof.
  apply (ill_shaped_response_is_rejected
           (Scenario.steady (Scenario.every 400) Scenario.prompt_pane
              (LLMParsed 900 12 (PDict [("status", PStr "working");
                                        ("confidence", PInt 80)])))
           "doc-1" "make: done" None None
           (Scenario.fresh_state Scenario.with_key [])
           900 12 (PDict [("status", PStr "working"); ("confidence", PInt 80)]));
    reflexivity.
Defined.

(* ===================================================================== *)
(** ** More on a pass and on activity *)
(* ===================================================================== *)

(** X11: a pass is abandoned -- it returns without calling the
    classifier, and leaves the workers, the request count and both audit
    logs as they were -- when monitoring is disabled, when the worker is not
    registered, or when its pane cannot be captured or is empty. *)
Theorem skipped_pass_changes_nothing (env : Env) (wid : string) (s : State) :
  enabled (st_config s) = false \/
  worker_of wid s = None \/
  (exists w, worker_of wid s = Some w /\
             match run_tmux env (st_tick s)
                            (CapturePane (st_session s) (window_num w)
                                         (max_context_lines (st_config s))) with
             | Completed 0 "" => True
             | Completed 0 _ => False
             | _ => True
             end) ->
  let m := LLMMonitorDaemon.analyze_worker env wid in
  outcome m s = Ret tt /\
  st_workers (exec m s) = st_workers s /\
  st_total_requests (exec m s) = st_total_requests s /\
  st_decisions_log (exec m s) = st_decisions_log s /\
  st_json_log (exec m s) = st_json_log s.
Proof.
  intros Hskip m. subst m.
  unfold LLMMonitorDaemon.analyze_worker, TmuxInterface.capture_pane, subprocess_run,
    worker_of in *.
  run_monad.
  destruct (enabled (st_config s)); simpl; [ | repeat split; reflexivity ].
  destruct Hskip as [Hoff | [Hnone | (w & Hw & Hpane)]]; [ discriminate | | ].
  - rewrite Hnone. repeat split; reflexivity.
  - rewrite Hw. simpl.
    destruct (run_tmux env (st_tick s) _) as [rc out | e]; simpl;
      [ | repeat split; reflexivity ].
    destruct rc; simpl; try (repeat split; reflexivity).
    destruct out; [ repeat split; reflexivity | contradiction ].
Qed.

Lemma skipped_pass_witness :
  let env := Scenario.steady (Scenario.every 400)
                             (ProcRaises (TimeoutExpired "timed out after 5 seconds"))
                             (Scenario.answer "stuck" "approve") in
  let s := Scenario.fresh_state Scenario.with_key
             [("doc-1", Scenario.worker_at "doc-1" 1 "WORKING" 2)] in
  let m := LLMMonitorDaemon.analyze_worker env "doc-1" in
  outcome m s = Ret tt /\
  st_workers (exec m s) = st_workers s /\
  st_total_requests (exec m s) = 0.
Proof.
  intros env s m.
  destruct (skipped_pass_changes_nothing env "doc-1" s) as (H1 & H2 & H3 & _).
  - right. right. exists (Scenario.worker_at "doc-1" 1 "WORKING" 2).
    split; [ reflexivity | exact I ].
  - fold m in H1, H2, H3. split; [ exact H1 | ]. split; [ exact H2 | exact H3 ].
Defined.

(** X12: a write to the log of a registered worker is a touch: its
    [last_activity] becomes the clock's reading, its streak of stuck results
    returns to 0, its status and last analysis stay, and no other worker
    changes. *)
Theorem log_update_touches_worker (env : Env) (wid : string) (w : WorkerState) (s : State) :
  worker_of wid s = Some w ->
  let m := LLMMonitorDaemon.on_worker_log_update env wid in
  outcome m s = Ret tt /\
  worker_of wid (exec m s)
  = Some (mk_worker (worker_id w) (window_num w) (clock env (st_tick s))
                    (last_analysis w) (status w) 0) /\
  (forall id, wid <> id -> worker_of id (exec m s) = worker_of id s).
Proof.
  intros Hw m. subst m. unfold worker_of in *.
  unfold LLMMonitorDaemon.on_worker_log_update, update_activity, datetime_now,
    mutate_worker.
  run_monad. rewrite Hw. simpl.
  split; [ reflexivity | ]. split.
  - rewrite workers_get_update_same, Hw. reflexivity.
  - intros id Hneq. apply workers_get_update_other, Hneq.
Qed.

Lemma log_update_witness :
  let env := Scenario.steady (Scenario.every 400) Scenario.prompt_pane
                             (LLMRaises "unused") in
  let s := Scenario.fresh_state Scenario.with_key
             [("doc-1", Scenario.worker_at "doc-1" 1 "stuck" 2)] in
  let m := LLMMonitorDaemon.on_worker_log_update env "doc-1" in
  option_map consecutive_stuck_count (worker_of "doc-1" (exec m s)) = Some 0 /\
  option_map last_activity (worker_of "doc-1" (exec m s)) = Some (400 * us_per_second) /\
  option_map status (worker_of "doc-1" (exec m s)) = Some (PStr "stuck").
Proof.
  intros env s m.
  destruct (log_update_touches_worker
              env "doc-1" (Scenario.worker_at "doc-1" 1 "stuck" 2) s eq_refl)
    as (_ & H & _).
  fold m in H. rewrite H. repeat split.
Defined.

(** X13: a write to a log whose name is no registered worker's is
    ignored altogether: nothing is logged, the clock is not even read. *)
Theorem log_update_of_unknown_worker_is_ignored (env : Env) (wid : string) (s : State) :
  worker_of wid s = None ->
  LLMMonitorDaemon.on_worker_log_update env wid s = (Ret tt, s).
Proof.
  intros Hw. unfold worker_of in Hw.
  unfold LLMMonitorDaemon.on_worker_log_update. run_monad. rewrite Hw. reflexivity.
Qed.

Lemma log_update_of_unknown_worker_witness :
  let env := Scenario.steady (Scenario.every 400) Scenario.prompt_pane
                             (LLMRaises "unused") in
  let s := Scenario.fresh_state Scenario.with_key
             [("doc-1", Scenario.worker_at "doc-1" 1 "stuck" 2)] in
  LLMMonitorDaemon.on_worker_log_update env "czar" s = (Ret tt, s).
Proof.
  intros env s.
  apply (log_update_of_unknown_worker_is_ignored env "czar" s). reflexivity.
Defined.

(* ===================================================================== *)
(** ** More on the stale check *)
(* ===================================================================== *)

Lemma update_keeps_field {X : Type} (g : WorkerState -> X) ws id wid f :
  (forall w, g (f w) = g w) ->
  option_map g (workers_get (workers_update ws id f) wid)
  = option_map g (workers_get ws wid).
Proof.
  intros Hf. induction ws as [ | [k w] ws IH]; simpl; [ reflexivity | ].
  destruct (String.eqb k id) eqn:E; simpl.
  - destruct (String.eqb k wid); simpl; [ rewrite Hf | ]; reflexivity.
  - destruct (String.eqb k wid); [ reflexivity | exact IH ].
Qed.

Ltac walk_pinned :=
  unfold LLMMonitorDaemon.apply_analysis, LLMMonitorDaemon.update_stuck_count,
    mutate_worker,
    TmuxInterface.capture_pane, TmuxInterface.send_keys, subprocess_run,
    WorkerAnalyzer.analyze_worker, WorkerAnalyzer.call_and_parse,
    WorkerAnalyzer.on_failure, WorkerAnalyzer.bump_requests, WorkerAnalyzer.add_cost,
    ActionExecutor.execute, ActionExecutor._log_decision,
    ActionExecutor.append_human, ActionExecutor.append_json,
    WorkerStateM.is_stale,
    datetime_now, logging, emit, getitem, setitem;
  repeat first
    [ apply preserves_ret
    | apply preserves_raise
    | apply preserves_gets
    | apply preserves_bind; [ | intros ]
    | apply preserves_try; [ | intros ]
    | apply preserves_modify;
      solve [ intros; unfold worker_of;
              first [ reflexivity
                    | simpl; apply update_keeps_field; intros; reflexivity ] ]
    | apply preserves_ask; solve [ intros; reflexivity ]
    | match goal with
      | |- preserves _ (if ?b then _ else _) => destruct b
      | |- preserves _ (match ?x with _ => _ end) => destruct x
      | |- preserves _ (let _ := _ in _) => cbv zeta
      end ].

Lemma analyze_worker_keeps_pinned (env : Env) id wid :
  preserves (fun s => option_map pinned (worker_of wid s))
            (LLMMonitorDaemon.analyze_worker env id).
Proof. unfold LLMMonitorDaemon.analyze_worker. walk_pinned. Qed.

Lemma check_worker_keeps_pinned (env : Env) id wid :
  preserves (fun s => option_map pinned (worker_of wid s))
            (LLMMonitorDaemon.check_worker env id).
Proof.
  unfold LLMMonitorDaemon.check_worker.
  apply preserves_bind; [ apply preserves_gets | intros ws ].
  destruct (workers_get ws id); [ | apply preserves_ret ].
  apply preserves_bind; [ apply preserves_gets | intros cfg ].
  apply preserves_bind; [ walk_pinned | intros stale ].
  destruct stale; [ | apply preserves_ret ].
  destruct (negb _); [ | apply preserves_ret ].
  apply preserves_bind; [ walk_pinned | intros _ ].
  apply analyze_worker_keeps_pinned.
Qed.

Lemma check_worker_keeps_keys (env : Env) id :
  preserves (fun s => map fst (st_workers s)) (LLMMonitorDaemon.check_worker env id).
Proof.
  unfold LLMMonitorDaemon.check_worker.
  apply preserves_bind; [ apply preserves_gets | intros ws ].
  destruct (workers_get ws id); [ | apply preserves_ret ].
  apply preserves_bind; [ apply preserves_gets | intros cfg ].
  apply preserves_bind;
    [ unfold WorkerStateM.is_stale, datetime_now;
      apply preserves_bind; [ apply preserves_ask; intros; reflexivity
                            | intros; apply preserves_ret ]
    | intros stale ].
  destruct stale; [ | apply preserves_ret ].
  destruct (negb _); [ | apply preserves_ret ].
  apply preserves_bind;
    [ unfold logging, emit; apply preserves_modify; intros; reflexivity | intros _ ].
  apply analyze_worker_keeps_keys.
Qed.

Lemma check_each_keeps_keys (env : Env) ids :
  preserves (fun s => map fst (st_workers s)) (LLMMonitorDaemon.check_each env ids).
Proof.
  induction ids as [ | id rest IH]; [ apply preserves_ret | ].
  rewrite check_each_cons.
  apply preserves_bind; [ apply check_worker_keeps_keys | intros _; exact IH ].
Qed.

Lemma check_each_keeps_pinned (env : Env) wid ids :
  preserves (fun s => option_map pinned (worker_of wid s))
            (LLMMonitorDaemon.check_each env ids).
Proof.
  induction ids as [ | id rest IH]; [ apply preserves_ret | ].
  rewrite check_each_cons.
  apply preserves_bind; [ apply check_worker_keeps_pinned | intros _; exact IH ].
Qed.

(** X14: being classified is not activity.  A stale check, however many
    workers it classifies and however it ends, changes no worker's
    [last_activity] (nor its window), and registers or drops no worker: a
    stale worker stays stale until its log or an event names it. *)
Theorem stale_check_is_not_activity (env : Env) (s : State) :
  let s' := exec (LLMMonitorDaemon.check_stale_workers env) s in
  map fst (st_workers s') = map fst (st_workers s) /\
  forall id,
    option_map last_activity (worker_of id s') = option_map last_activity (worker_of id s) /\
    option_map window_num (worker_of id s') = option_map window_num (worker_of id s).
Proof.
  intros s'. subst s'. unfold LLMMonitorDaemon.check_stale_workers.
  rewrite exec_bind, outcome_gets, exec_gets.
  split; [ apply (check_each_keeps_keys env (map fst (st_workers s)) s) | ].
  intros id.
  pose proof (check_each_keeps_pinned env id (map fst (st_workers s)) s) as P.
  cbv beta in P.
  destruct (worker_of id (exec _ s)) as [w' | ], (worker_of id s) as [w | ];
    simpl in *; try discriminate; [ | split; reflexivity ].
  injection P as Hwin Hact. rewrite Hwin, Hact. split; reflexivity.
Qed.

(** When the guard of the loop body is false for a registered worker, its
    turn only reads the clock. *)
Lemma check_worker_skips (env : Env) wid w s :
  worker_of wid s = Some w ->
  WorkerStateM.is_stale_at (clock env (st_tick s)) w (stale_threshold (st_config s))
  && negb (py_in_strs (status w) ["COMPLETE"; "STUCK"]) = false ->
  LLMMonitorDaemon.check_worker env wid s = (Ret tt, set_tick (S (st_tick s)) s).
Proof.
  intros Hw Hguard. unfold worker_of in Hw.
  unfold LLMMonitorDaemon.check_worker, WorkerStateM.is_stale, datetime_now.
  run_monad. rewrite Hw. simpl.
  destruct (WorkerStateM.is_stale_at _ _ _); [ | reflexivity ].
  simpl in Hguard. unfold py_in_strs in Hguard. simpl in Hguard.
  rewrite Hguard. reflexivity.
Qed.

Lemma check_each_skips (env : Env) wid w ids :
  forall s,
    worker_of wid s = Some w ->
    (forall n, (st_tick s <= n < st_tick (exec (LLMMonitorDaemon.check_each env ids) s))%nat ->
               WorkerStateM.is_stale_at (clock env n) w (stale_threshold (st_config s))
               && negb (py_in_strs (status w) ["COMPLETE"; "STUCK"]) = false) ->
    passes wid (exec (LLMMonitorDaemon.check_each env ids) s) = passes wid s /\
    worker_of wid (exec (LLMMonitorDaemon.check_each env ids) s) = Some w.
Proof.
  induction ids as [ | id rest IH]; intros s Hw Hguard; [ split; [ reflexivity | exact Hw ] | ].
  rewrite check_each_cons in *.
  pose proof (check_worker_advances env id s) as Hadv.
  assert (Hfinal : (st_tick (exec (LLMMonitorDaemon.check_worker env id) s)
                    <= st_tick (exec (LLMMonitorDaemon.check_worker env id ;;;
                                      LLMMonitorDaemon.check_each env rest) s))%nat).
  { rewrite (exec_bind (LLMMonitorDaemon.check_worker env id)
                       (fun _ => LLMMonitorDaemon.check_each env rest) s).
    destruct (outcome (LLMMonitorDaemon.check_worker env id) s);
      [ apply check_each_advances | apply Nat.le_refl ]. }
  destruct (String.eqb_spec id wid) as [-> | Hneq].
  - pose proof (check_worker_reads_clock env wid w s Hw) as Hread.
    assert (Hnow : WorkerStateM.is_stale_at (clock env (st_tick s)) w
                                            (stale_threshold (st_config s))
                   && negb (py_in_strs (status w) ["COMPLETE"; "STUCK"]) = false)
      by (apply Hguard; lia).
    pose proof (check_worker_skips env wid w s Hw Hnow) as Hskip.
    assert (He : exec (LLMMonitorDaemon.check_worker env wid) s = set_tick (S (st_tick s)) s)
      by (unfold exec; rewrite Hskip; reflexivity).
    assert (Ho : outcome (LLMMonitorDaemon.check_worker env wid) s = Ret tt)
      by (unfold outcome; rewrite Hskip; reflexivity).
    rewrite (exec_bind (LLMMonitorDaemon.check_worker env wid)
                       (fun _ => LLMMonitorDaemon.check_each env rest) s) in *.
    rewrite Ho, He in *.
    destruct (IH (set_tick (S (st_tick s)) s) Hw) as [Hp Hw'].
    + intros n Hn. apply Hguard. simpl in Hn. lia.
    + split; [ rewrite Hp; reflexivity | exact Hw' ].
  - destruct (check_worker_keeps_others env id wid Hneq) as (Fw & Fp & Fc).
    rewrite (exec_bind (LLMMonitorDaemon.check_worker env id)
                       (fun _ => LLMMonitorDaemon.check_each env rest) s) in *.
    destruct (outcome (LLMMonitorDaemon.check_worker env id) s).
    + destruct (IH (exec (LLMMonitorDaemon.check_worker env id) s)) as [Hp Hw'].
      * rewrite Fw. exact Hw.
      * intros n Hn. rewrite Fc. apply Hguard. lia.
      * split; [ rewrite Hp; apply Fp | exact Hw' ].
    + split; [ apply Fp | rewrite Fw; exact Hw ].
Qed.

(** X15: the stale check never classifies a worker whose status is
    ["COMPLETE"] or ["STUCK"], however long it has been idle: it gets no
    pass and is left exactly as it was. *)
Theorem guarded_worker_is_left_alone (env : Env) (wid : string) (w : WorkerState) (s : State) :
  worker_of wid s = Some w ->
  py_in_strs (status w) ["COMPLETE"; "STUCK"] = true ->
  let s' := exec (LLMMonitorDaemon.check_stale_workers env) s in
  passes wid s' = passes wid s /\ worker_of wid s' = Some w.
Proof.
  intros Hw Hstatus s'. subst s'. unfold LLMMonitorDaemon.check_stale_workers.
  rewrite exec_bind, outcome_gets, exec_gets.
  apply check_each_skips; [ exact Hw | ].
  intros n _. rewrite Hstatus. apply andb_false_r.
Qed.

Lemma guarded_worker_witness :
  let env := Scenario.steady (Scenario.every 4000) Scenario.prompt_pane
                             (Scenario.answer "working" "none") in
  let w := Scenario.worker_at "doc-1" 2 "COMPLETE" 0 in
  let s := Scenario.fresh_state Scenario.with_key
             [("build-1", Scenario.worker_at "build-1" 1 "WORKING" 0); ("doc-1", w)] in
  let s' := exec (LLMMonitorDaemon.check_stale_workers env) s in
  passes "doc-1" s' = [] /\ worker_of "doc-1" s' = Some w.
Proof.
  intros env w s s'.
  apply (guarded_worker_is_left_alone env "doc-1" w s); reflexivity.
Defined.

(** X16: the stale check never classifies a worker that is not stale: if
    every reading of the clock during the check shows it idle for at most
    [stale_threshold] whole seconds, it gets no pass and is left exactly as
    it was. *)
Theorem fresh_worker_is_left_alone (env : Env) (wid : string) (w : WorkerState) (s : State) :
  worker_of wid s = Some w ->
  let tick := LLMMonitorDaemon.check_stale_workers env in
  (forall n, (st_tick s <= n < st_tick (exec tick s))%nat ->
             0 <= clock env n - last_activity w < us_per_day /\
             (clock env n - last_activity w) / us_per_second
             <= stale_threshold (st_config s)) ->
  passes wid (exec tick s) = passes wid s /\ worker_of wid (exec tick s) = Some w.
Proof.
  intros Hw tick Hfresh. subst tick. unfold LLMMonitorDaemon.check_stale_workers in *.
  rewrite exec_bind, outcome_gets, exec_gets in *.
  apply check_each_skips; [ exact Hw | ].
  intros n Hn. destruct (Hfresh n Hn) as [Hrange Hle].
  destruct (WorkerStateM.is_stale_at (clock env n) w (stale_threshold (st_config s)))
    eqn:E; [ | reflexivity ].
  apply is_stale_at_within_day in E; [ lia | exact Hrange ].
Qed.

Lemma fresh_worker_witness :
  let env := Scenario.steady (Scenario.every 100) Scenario.prompt_pane
                             (Scenario.answer "working" "none") in
  let w := Scenario.worker_at "doc-1" 1 "WORKING" 0 in
  let s := Scenario.fresh_state Scenario.with_key [("doc-1", w)] in
  let s' := exec (LLMMonitorDaemon.check_stale_workers env) s in
  passes "doc-1" s' = [] /\ worker_of "doc-1" s' = Some w.
Proof.
  intros env w s s'.
  assert (Hticks : st_tick s' = 1%nat) by (vm_compute; reflexivity).
  apply (fresh_worker_is_left_alone env "doc-1" w s); [ reflexivity | ].
  intros n [_ Hn]. fold s' in Hn. rewrite Hticks in Hn.
  destruct n as [ | n]; [ cbv; repeat split; easy | exfalso; lia ].
Defined.

(* ===================================================================== *)
(** ** Registration of the workers *)
(* ===================================================================== *)

Lemma workers_get_set_same ws id w : workers_get (workers_set ws id w) id = Some w.
Proof.
  induction ws as [ | [k w'] ws IH]; simpl.
  - rewrite String.eqb_refl. reflexivity.
  - destruct (String.eqb k id) eqn:E; simpl; rewrite E; [ reflexivity | exact IH ].
Qed.

Lemma workers_get_set_other ws id id' w :
  id <> id' -> workers_get (workers_set ws id w) id' = workers_get ws id'.
Proof.
  intros Hneq. induction ws as [ | [k w'] ws IH]; simpl.
  - destruct (String.eqb_spec id id'); [ contradiction | reflexivity ].
  - destruct (String.eqb_spec k id) as [-> | Hk]; simpl.
    + destruct (String.eqb_spec id id'); [ contradiction | reflexivity ].
    + destruct (String.eqb k id'); [ reflexivity | exact IH ].
Qed.

Lemma workers_set_new_key ws id w :
  workers_get ws id = None -> map fst (workers_set ws id w) = map fst ws ++ [id].
Proof.
  induction ws as [ | [k w'] ws IH]; simpl; [ reflexivity | ].
  destruct (String.eqb k id); [ discriminate | ].
  intros H. simpl. rewrite IH by exact H. reflexivity.
Qed.

Lemma initialize_from_spec (env : Env) ids :
  forall idx s,
    NoDup ids ->
    (forall id, In id ids -> worker_of id s = None) ->
    let s' := exec (LLMMonitorDaemon.initialize_from env idx ids) s in
    map fst (st_workers s') = map fst (st_workers s) ++ ids /\
    (forall k id, nth_error ids k = Some id ->
                  worker_of id s'
                  = Some (WorkerStateM.init id (idx + Z.of_nat k + 1)
                                            (clock env (st_tick s + k)))) /\
    (forall id, ~ In id ids -> worker_of id s' = worker_of id s).
Proof.
  induction ids as [ | id rest IH]; intros idx s Hnodup Hnew s'.
  - subst s'. simpl. rewrite app_nil_r. repeat split; try reflexivity.
    intros [ | k] id H; discriminate.
  - inversion Hnodup as [ | ? ? Hnotin Hnodup']; subst.
    set (s1 := set_workers (workers_set (st_workers s) id
                              (WorkerStateM.init id (idx + 1) (clock env (st_tick s))))
                           (set_tick (S (st_tick s)) s)).
    assert (Es : s' = exec (LLMMonitorDaemon.initialize_from env (idx + 1) rest) s1)
      by reflexivity.
    assert (Hnew1 : forall id', In id' rest -> worker_of id' s1 = None).
    { intros id' Hin. unfold worker_of, s1. simpl.
      rewrite workers_get_set_other.
      - apply (Hnew id'). right. exact Hin.
      - intros ->. contradiction. }
    destruct (IH (idx + 1) s1 Hnodup' Hnew1) as (Hkeys & Hnth & Hout).
    rewrite <- Es in Hkeys, Hnth, Hout.
    split; [ | split ].
    + rewrite Hkeys. unfold s1. simpl.
      rewrite workers_set_new_key by (apply (Hnew id); left; reflexivity).
      rewrite <- app_assoc. reflexivity.
    + intros [ | k] id' Hk; simpl in Hk.
      * injection Hk as <-. rewrite (Hout id Hnotin).
        unfold worker_of, s1. simpl. rewrite workers_get_set_same.
        rewrite Nat.add_0_r. do 2 f_equal. simpl. lia.
      * rewrite (Hnth k id' Hk). unfold s1. simpl.
        do 2 f_equal; [ lia | f_equal; lia ].
    + intros id' Hnot. rewrite Hout.
      * unfold worker_of, s1. simpl. apply workers_get_set_other.
        intros ->. apply Hnot. left. reflexivity.
      * intros Hin. apply Hnot. right. exact Hin.
Qed.

(** X17: from an empty registry and a configuration that names each worker
    once, [_initialize_workers] registers the workers in the order of the
    configuration, the [k]-th of them (counting from 0) on window [k + 1]
    -- window 0 is left to the Czar -- , each with status ["STARTING"], no
    analysis, a streak of 0 and the clock's reading at its creation as last
    activity. *)
Theorem workers_are_registered_in_order
        (env : Env) (ids : list string) (s : State) :
  NoDup ids ->
  st_workers s = [] ->
  let s' := exec (LLMMonitorDaemon._initialize_workers env ids) s in
  map fst (st_workers s') = ids /\
  forall k id,
    nth_error ids k = Some id ->
    worker_of id s'
    = Some (mk_worker id (Z.of_nat k + 1) (clock env (st_tick s + k)) None
                      (PStr "STARTING") 0).
Proof.
  intros Hnodup Hempty s'. subst s'. unfold LLMMonitorDaemon._initialize_workers.
  destruct (initialize_from_spec env ids 0 s Hnodup) as (Hkeys & Hnth & _).
  - intros id _. unfold worker_of. rewrite Hempty. reflexivity.
  - split.
    + rewrite Hkeys, Hempty. reflexivity.
    + intros k id Hk. rewrite (Hnth k id Hk). reflexivity.
Qed.

Lemma workers_are_registered_witness :
  let env := Scenario.steady (Scenario.every 1) Scenario.prompt_pane (LLMRaises "unused") in
  let s := Scenario.fresh_state Scenario.with_key [] in
  let s' := exec (LLMMonitorDaemon._initialize_workers env ["build-1"; "doc-1"]) s in
  map fst (st_workers s') = ["build-1"; "doc-1"] /\
  option_map window_num (worker_of "doc-1" s') = Some 2.
Proof.
  intros env s s'.
  destruct (workers_are_registered_in_order env ["build-1"; "doc-1"] s) as [Hk Hn].
  - repeat constructor; simpl; intuition discriminate.
  - reflexivity.
  - fold s' in Hk, Hn. split; [ exact Hk | ].
    rewrite (Hn 1%nat "doc-1" eq_refl). reflexivity.
Defined.

(* ===================================================================== *)
(** ** The two activity sources *)
(* ===================================================================== *)

Lemma update_activity_keeps_keys (env : Env) id :
  preserves (fun s => map fst (st_workers s)) (update_activity env id).
Proof.
  unfold update_activity, datetime_now, mutate_worker.
  apply preserves_bind; [ apply preserves_ask; intros; reflexivity | intros now ].
  apply preserves_modify. intros s. simpl. apply workers_update_keys.
Qed.

(** X18: whatever the last line of [events.jsonl] holds -- nothing, text
    that is not JSON, a JSON value that is not an object, an object naming
    an unknown or an unhashable worker -- [on_events_update] returns
    normally, and it registers or drops no worker. *)
Theorem events_update_never_raises (env : Env) (s : State) :
  let m := LLMMonitorDaemon.on_events_update env in
  outcome m s = Ret tt /\
  map fst (st_workers (exec m s)) = map fst (st_workers s).
Proof.
  intros m. subst m. unfold LLMMonitorDaemon.on_events_update. split.
  - rewrite outcome_bind, outcome_ask, outcome_try.
    destruct (outcome _ _) as [[] | e]; reflexivity.
  - apply (preserves_bind (fun s => map fst (st_workers s)));
      [ apply preserves_ask; intros; reflexivity | intros tail ].
    apply preserves_try.
    + unfold LLMMonitorDaemon.touch_from_event, LLMMonitorDaemon.in_workers.
      destruct tail as [ | | e | v]; try apply preserves_ret; try apply preserves_raise.
      destruct v; try apply preserves_raise.
      apply preserves_bind.
      * destruct (if truthy _ then _ else _); try apply preserves_ret;
          try apply preserves_raise.
        apply preserves_bind; [ apply preserves_gets | intros; apply preserves_ret ].
      * intros known. destruct known; [ | apply preserves_ret ].
        destruct (if truthy _ then _ else _); try apply preserves_ret.
        apply preserves_bind; [ apply update_activity_keeps_keys | intros _ ].
        unfold logging, emit. apply preserves_modify. intros; reflexivity.
    + intros e. unfold logging, emit. apply preserves_modify. intros; reflexivity.
Qed.

(** X19: an event whose [source] is a registered worker -- or, when it has
    no [source] (or an empty one), whose [worker] is -- touches that worker:
    its [last_activity] becomes the clock's reading and its streak returns
    to 0; no other worker changes. *)
Theorem event_touches_its_worker
        (env : Env) (ev : pydict) (wid : string) (w : WorkerState) (s : State) :
  read_events_tail env (st_tick s) = LastEvent (PDict ev) ->
  (dict_get ev "source" = PStr wid /\ wid <> "") \/
  (truthy (dict_get ev "source") = false /\ dict_get ev "worker" = PStr wid) ->
  worker_of wid s = Some w ->
  let m := LLMMonitorDaemon.on_events_update env in
  outcome m s = Ret tt /\
  worker_of wid (exec m s)
  = Some (mk_worker (worker_id w) (window_num w) (clock env (S (st_tick s)))
                    (last_analysis w) (status w) 0) /\
  (forall id, wid <> id -> worker_of id (exec m s) = worker_of id s).
Proof.
  intros Htail Hnamed Hw m. subst m. unfold worker_of in *.
  assert (Hwid : (if truthy (dict_get ev "source") then dict_get ev "source"
                  else dict_get ev "worker") = PStr wid).
  { destruct Hnamed as [[Hsrc Hne] | [Hfalsy Hwk]].
    - rewrite Hsrc. simpl. destruct (String.eqb_spec wid ""); [ contradiction | reflexivity ].
    - rewrite Hfalsy. exact Hwk. }
  unfold LLMMonitorDaemon.on_events_update, LLMMonitorDaemon.touch_from_event,
    LLMMonitorDaemon.in_workers, update_activity, datetime_now, mutate_worker.
  run_monad. rewrite Htail, Hwid. simpl. rewrite Hw. simpl.
  split; [ reflexivity | ]. split.
  - rewrite workers_get_update_same, Hw. reflexivity.
  - intros id Hneq. apply workers_get_update_other, Hneq.
Qed.

Lemma event_touches_witness :
  let ev := [("event", PStr "commit"); ("source", PStr "doc-1"); ("worker", PStr "build-1")] in
  let env := mk_env (Scenario.every 400) (fun _ _ => Scenario.prompt_pane)
                    (fun _ _ => LLMRaises "unused") (fun _ _ => None)
                    (fun _ => LastEvent (PDict ev)) (fun _ _ => None) in
  let s := Scenario.fresh_state Scenario.with_key
             [("build-1", Scenario.worker_at "build-1" 1 "stuck" 1);
              ("doc-1", Scenario.worker_at "doc-1" 2 "stuck" 2)] in
  let m := LLMMonitorDaemon.on_events_update env in
  option_map consecutive_stuck_count (worker_of "doc-1" (exec m s)) = Some 0 /\
  option_map consecutive_stuck_count (worker_of "build-1" (exec m s)) = Some 1.
Proof.
  intros ev env s m.
  destruct (event_touches_its_worker
              env ev "doc-1" (Scenario.worker_at "doc-1" 2 "stuck" 2) s eq_refl)
    as (_ & Htouched & Hothers).
  - left. split; [ reflexivity | discriminate ].
  - reflexivity.
  - fold m in Htouched, Hothers. split.
    + rewrite Htouched. reflexivity.
    + rewrite (Hothers "build-1") by discriminate. reflexivity.
Defined.

Lemma length_append (a b : string) :
  String.length (a ++ b)%string = (String.length a + String.length b)%nat.
Proof. induction a as [ | c a IH]; simpl; [ reflexivity | rewrite IH; reflexivity ]. Qed.

Lemma substring_prefix (a b : string) :
  substring 0 (String.length a) (a ++ b)%string = a.
Proof.
  induction a as [ | c a IH]; simpl.
  - destruct b; reflexivity.
  - rewrite IH. reflexivity.
Qed.

Lemma substring_suffix (a b : string) :
  substring (String.length a) (String.length b) (a ++ b)%string = b.
Proof.
  induction a as [ | c a IH]; simpl; [ | exact IH ].
  induction b as [ | c b IHb]; simpl; [ reflexivity | rewrite IHb; reflexivity ].
Qed.

Lemma rfind_dot_log (id : string) :
  rfind_dot (id ++ ".log")%string = Some (String.length id).
Proof.
  induction id as [ | c id IH]; [ reflexivity | ].
  simpl. rewrite IH. reflexivity.
Qed.

(** A worker's log file is named after the worker. *)
Lemma path_stem_log (id : string) :
  id <> "" -> path_stem (id ++ ".log")%string = id.
Proof.
  intros Hne. unfold path_stem. rewrite rfind_dot_log, length_append. simpl.
  destruct id as [ | c id]; [ contradiction | ].
  simpl String.length.
  replace ((0 <? S (String.length id)) && (S (String.length id) <? S (String.length id) + 4 - 1))%nat
    with true.
  - apply (substring_prefix (String c id) ".log").
  - symmetry. apply andb_true_intro. split; apply Nat.ltb_lt; lia.
Qed.

Lemma endswith_log (id : string) : endswith (id ++ ".log")%string ".log" = true.
Proof.
  unfold endswith. rewrite length_append. simpl String.length.
  apply andb_true_intro. split; [ apply Nat.leb_le; lia | ].
  replace (String.length id + 4 - 4)%nat with (String.length id) by lia.
  pose proof (substring_suffix id ".log") as H.
  change (String.length ".log") with 4%nat in H. rewrite H. reflexivity.
Qed.

(** X20: a modification of the file [<id>.log] -- for a non-empty [id]
    other than [orchestration] -- is handled exactly as a log update of
    worker [id]: the worker is found back from the file's name. *)
Theorem log_file_event_is_a_log_update (env : Env) (id : string) :
  id <> "" ->
  id <> "orchestration" ->
  LogFileEventHandler.on_modified env (mk_fs_event false (id ++ ".log")%string)
  = LLMMonitorDaemon.on_worker_log_update env id.
Proof.
  intros Hne Horch. unfold LogFileEventHandler.on_modified. simpl.
  destruct (String.eqb_spec (id ++ ".log")%string "events.jsonl") as [E | _].
  { pose proof (endswith_log id) as H. rewrite E in H. discriminate. }
  rewrite endswith_log.
  destruct (String.eqb_spec (id ++ ".log")%string "orchestration.log") as [E | _].
  { exfalso. apply Horch. rewrite <- (path_stem_log id Hne), E. reflexivity. }
  simpl. rewrite path_stem_log by exact Hne. reflexivity.
Qed.

Lemma log_file_event_witness :
  let env := Scenario.steady (Scenario.every 400) Scenario.prompt_pane
                             (LLMRaises "unused") in
  let s := Scenario.fresh_state Scenario.with_key
             [("doc-1", Scenario.worker_at "doc-1" 1 "stuck" 2)] in
  option_map consecutive_stuck_count
             (worker_of "doc-1"
                (exec (LogFileEventHandler.on_modified env (mk_fs_event false "doc-1.log")) s))
  = Some 0.
Proof.
  intros env s.
  change "doc-1.log" with ("doc-1" ++ ".log")%string.
  rewrite (log_file_event_is_a_log_update env "doc-1");
    [ reflexivity | discriminate | discriminate ].
Defined.

(** X21: the watcher ignores -- no clock reading, no log entry, no change
    of any kind -- every event about a directory, about
    [orchestration.log], and about any file that is neither [events.jsonl]
    nor named [*.log]. *)
Theorem other_file_events_are_ignored (env : Env) (ev : fs_event) (s : State) :
  is_directory ev = true \/
  src_name ev = "orchestration.log" \/
  (src_name ev <> "events.jsonl" /\ endswith (src_name ev) ".log" = false) ->
  LogFileEventHandler.on_modified env ev s = (Ret tt, s).
Proof.
  intros Hcase. unfold LogFileEventHandler.on_modified.
  destruct (is_directory ev); [ reflexivity | ].
  destruct Hcase as [Hdir | [Horch | [Hnot Hend]]]; [ discriminate | | ].
  - rewrite Horch. reflexivity.
  - destruct (String.eqb_spec (src_name ev) "events.jsonl"); [ contradiction | ].
    rewrite Hend. reflexivity.
Qed.

Lemma other_file_events_witness :
  let env := Scenario.steady (Scenario.every 400) Scenario.prompt_pane
                             (LLMRaises "unused") in
  let s := Scenario.fresh_state Scenario.with_key
             [("doc-1", Scenario.worker_at "doc-1" 1 "stuck" 2)] in
  LogFileEventHandler.on_modified env (mk_fs_event false "doc-1.log.swp") s = (Ret tt, s).
Proof.
  intros env s.
  apply (other_file_events_are_ignored env (mk_fs_event false "doc-1.log.swp") s).
  right. right. split; [ discriminate | reflexivity ].
Defined.

(* ===================================================================== *)
(** ** Loading the configuration *)
(* ===================================================================== *)

Lemma override_keeps {X : Type} (g : loaded_config -> X) llm key set acc :
  (forall v c, g (set v c) = g c) ->
  g (fst (ConfigLoader.override llm key set acc)) = g (fst acc).
Proof.
  intros Hset. unfold ConfigLoader.override.
  destruct acc as [c [e | ]]; [ reflexivity | ].
  destruct (ConfigLoader.contains key llm) as [[ | ] | e]; try reflexivity.
  destruct (ConfigLoader.subscript llm key) as [v | e]; [ apply Hset | reflexivity ].
Qed.

Lemma apply_file_keeps {X : Type} (g : loaded_config -> X) data c :
  (forall v c, g (ConfigLoader.set_enabled v c) = g c) ->
  (forall v c, g (ConfigLoader.set_model v c) = g c) ->
  (forall v c, g (ConfigLoader.set_check_interval v c) = g c) ->
  (forall v c, g (ConfigLoader.set_auto_approve v c) = g c) ->
  g (fst (ConfigLoader.apply_file data c)) = g c.
Proof.
  intros H1 H2 H3 H4. unfold ConfigLoader.apply_file.
  destruct data; try reflexivity.
  rewrite !override_keeps by assumption. reflexivity.
Qed.

(** X22: [config.json] cannot change the staleness threshold, the number
    of pane lines captured, or [log_all_decisions]: whatever the file holds
    and whether or not it can be read, they keep their defaults (300 s,
    100 lines, on), and the key is the one of the environment. *)
Theorem file_cannot_change_thresholds (key : option string) (file : config_file) :
  let c := fst (ConfigLoader._load_config key file) in
  lc_stale_threshold c = 300 /\
  lc_max_context_lines c = 100 /\
  lc_log_all_decisions c = true /\
  lc_api_key c = key.
Proof.
  intros c. subst c. unfold ConfigLoader._load_config.
  set (g := fun c => (lc_stale_threshold c, lc_max_context_lines c,
                      lc_log_all_decisions c, lc_api_key c)).
  assert (G : g (fst (let (c1, w1) :=
                        if truthy_str key
                        then (ConfigLoader.initial key, [])
                        else (ConfigLoader.set_enabled (PBool false)
                                (ConfigLoader.initial key), [WarnNoApiKey]) in
                      match file with
                      | ConfigMissing => (c1, w1)
                      | ConfigUnreadable e => (c1, w1 ++ [WarnLoadFailed e])
                      | ConfigData data =>
                          match ConfigLoader.apply_file data c1 with
                          | (c2, None) => (c2, w1)
                          | (c2, Some e) => (c2, w1 ++ [WarnLoadFailed e])
                          end
                      end))
              = (300, 100, true, key)).
  { destruct (truthy_str key); destruct file as [ | e | data]; try reflexivity.
    - pose proof (apply_file_keeps g data (ConfigLoader.initial key)) as H.
      destruct (ConfigLoader.apply_file data _) as [c2 [e | ]]; simpl in *;
        rewrite H; reflexivity.
    - pose proof (apply_file_keeps g data
                    (ConfigLoader.set_enabled (PBool false) (ConfigLoader.initial key))) as H.
      destruct (ConfigLoader.apply_file data _) as [c2 [e | ]]; simpl in *;
        rewrite H; reflexivity. }
  unfold g in G. injection G as G1 G2 G3 G4. repeat split; assumption.
Qed.

(** X23: an [enabled] entry under [llm_monitor] in [config.json] decides
    whether monitoring is enabled, also against the API key check: with no
    key in the environment and [enabled: true] in the file, monitoring comes
    out enabled (the missing key is only warned about). *)
Theorem file_enabled_overrides_key_check
        (key : option string) (d llm : pydict) (v : pyval) :
  dict_lookup d "llm_monitor" = Some (PDict llm) ->
  dict_lookup llm "enabled" = Some v ->
  let r := ConfigLoader._load_config key (ConfigData (PDict d)) in
  lc_enabled (fst r) = v /\
  snd r = (if truthy_str key then [] else [WarnNoApiKey]).
Proof.
  intros Hllm Hen r. subst r.
  unfold ConfigLoader._load_config, ConfigLoader.apply_file, dict_get_default.
  rewrite Hllm.
  unfold ConfigLoader.override, ConfigLoader.contains, ConfigLoader.subscript.
  rewrite Hen.
  destruct (truthy_str key);
    destruct (dict_lookup llm "model");
    destruct (dict_lookup llm "check_interval");
    destruct (dict_lookup llm "auto_approve"); split; reflexivity.
Qed.

Lemma file_enabled_witness :
  let d := [("project", PDict [("slug", PStr "demo")]);
            ("llm_monitor", PDict [("enabled", PBool true); ("check_interval", PInt 10)])] in
  let r := ConfigLoader._load_config None (ConfigData (PDict d)) in
  lc_enabled (fst r) = PBool true /\ snd r = [WarnNoApiKey].
Proof.
  intros d r.
  apply (file_enabled_overrides_key_check
           None d [("enabled", PBool true); ("check_interval", PInt 10)] (PBool true));
    reflexivity.
Defined.

(** X24: when [config.json] is missing or unreadable, or is an object
    whose [llm_monitor] is absent or is an object without [enabled],
    monitoring is enabled exactly when [ANTHROPIC_API_KEY] is set and not
    empty. *)
Theorem key_decides_without_file_entry (key : option string) (file : config_file) :
  file = ConfigMissing \/
  (exists e, file = ConfigUnreadable e) \/
  (exists d, file = ConfigData (PDict d) /\
             (dict_lookup d "llm_monitor" = None \/
              exists llm, dict_lookup d "llm_monitor" = Some (PDict llm) /\
                          dict_lookup llm "enabled" = None)) ->
  lc_enabled (fst (ConfigLoader._load_config key file)) = PBool (truthy_str key).
Proof.
  intros [-> | [[e ->] | (d & -> & Hd)]].
  - unfold ConfigLoader._load_config. destruct (truthy_str key); reflexivity.
  - unfold ConfigLoader._load_config. destruct (truthy_str key); reflexivity.
  - unfold ConfigLoader._load_config, ConfigLoader.apply_file, dict_get_default.
    destruct Hd as [-> | (llm & -> & Hen)].
    + destruct (truthy_str key); reflexivity.
    + unfold ConfigLoader.override, ConfigLoader.contains, ConfigLoader.subscript.
      rewrite Hen.
      destruct (truthy_str key);
        destruct (dict_lookup llm "model");
        destruct (dict_lookup llm "check_interval");
        destruct (dict_lookup llm "auto_approve"); reflexivity.
Qed.

Lemma key_decides_witness :
  lc_enabled (fst (ConfigLoader._load_config (Some "")
                     (ConfigUnreadable (OSError "Permission denied"))))
  = PBool false.
Proof.
  apply (key_decides_without_file_entry
           (Some "") (ConfigUnreadable (OSError "Permission denied"))).
  right. left. eexists. reflexivity.
Defined.

(* ===================================================================== *)
(** ** More on the streak and on what a pass records *)
(* ===================================================================== *)



(** X26: any result whose status is not exactly ["stuck"] or
    ["confused"] -- [working], [waiting], [complete], [error], but also an
    upper-case ["STUCK"] or a value that is not a string -- ends the streak:
    processing it (it carries a reasoning) returns, stores the raw status,
    resets the streak to 0 and logs no escalation entry. *)
Theorem other_status_ends_the_streak
        (env : Env) (wid : string) (window : Z) (analysis : pydict) (st act : pyval)
        (w : WorkerState) (s : State) :
  worker_of wid s = Some w ->
  dict_lookup analysis "status" = Some st ->
  stuck_like st = false ->
  dict_lookup analysis "action" = Some act ->
  dict_lookup analysis "reasoning" <> None ->
  let m := LLMMonitorDaemon.apply_analysis env wid window analysis in
  outcome m s = Ret tt /\
  worker_of wid (exec m s)
  = Some (mk_worker (worker_id w) (window_num w) (last_activity w) (Some analysis) st 0) /\
  escalations wid (exec m s) = escalations wid s.
Proof.
  intros Hw Hst Hother Hact Hr m.
  destruct (apply_analysis_spec env wid window analysis st act w s Hw Hst Hact Hr)
    as (Ho & Hwk & Hesc & _ & _).
  fold m in Ho, Hwk, Hesc. rewrite Hother in Hwk, Hesc. simpl in Hesc.
  split; [ exact Ho | ]. split; [ exact Hwk | ].
  rewrite Hesc. apply app_nil_r.
Qed.

Lemma other_status_witness :
  let env := Scenario.steady (Scenario.every 400) Scenario.prompt_pane
                             (LLMRaises "unused") in
  let w := Scenario.worker_at "build-1" 1 "stuck" 2 in
  let s := Scenario.fresh_state Scenario.no_auto_approve [("build-1", w)] in
  let analysis := [("status", PStr "STUCK"); ("action", PStr "approve");
                   ("reasoning", PStr "prompt"); ("confidence", PInt 90)] in
  let m := LLMMonitorDaemon.apply_analysis env "build-1" 1 analysis in
  option_map consecutive_stuck_count (worker_of "build-1" (exec m s)) = Some 0 /\
  option_map status (worker_of "build-1" (exec m s)) = Some (PStr "STUCK").
Proof.
  intros env w s analysis m.
  destruct (other_status_ends_the_streak
              env "build-1" 1 analysis (PStr "STUCK") (PStr "approve") w s)
    as (_ & H & _); try reflexivity; [ discriminate | ].
  fold m in H. rewrite H. split; reflexivity.
Defined.

Lemma update_stuck_count_keeps_logs wid analysis :
  preserves (fun s => (st_decisions_log s, st_json_log s))
            (LLMMonitorDaemon.update_stuck_count wid analysis).
Proof.
  unfold LLMMonitorDaemon.update_stuck_count, mutate_worker, logging, emit, getitem.
  frame.
Qed.

(** X27: what reaches the audit trail.  Processing a classifier result
    appends its record to both logs exactly when its action is something
    other than [none] -- also when the executor then fails -- and appends
    nothing for [none]. *)
Theorem only_actions_reach_the_audit_trail
        (env : Env) (wid : string) (window : Z) (analysis : pydict) (st act : pyval)
        (s : State) :
  dict_lookup analysis "status" = Some st ->
  dict_lookup analysis "action" = Some act ->
  let m := LLMMonitorDaemon.apply_analysis env wid window analysis in
  let d := ActionExecutor.make_decision (clock env (st_tick s)) wid analysis in
  st_json_log (exec m s)
  = st_json_log s ++ (if py_eq_str act "none" then [] else [d]) /\
  st_decisions_log (exec m s)
  = st_decisions_log s
    ++ (if py_eq_str act "none" then [] else [ActionExecutor.human_line d]).
Proof.
  intros Hst Hact m d. subst m.
  unfold LLMMonitorDaemon.apply_analysis, getitem. rewrite Hst, Hact. step.
  match goal with
  | |- context [outcome (if _ then _ else _) ?s0] => set (s2 := s0)
  end.
  assert (Hd : ActionExecutor.make_decision (clock env (st_tick s2)) wid analysis = d)
    by reflexivity.
  assert (L : st_json_log s2 = st_json_log s /\ st_decisions_log s2 = st_decisions_log s)
    by (split; reflexivity).
  destruct L as [Lj Lh].
  destruct (py_eq_str act "none"); simpl negb; cbn iota.
  - step. rewrite !app_nil_r.
    pose proof (update_stuck_count_keeps_logs wid analysis s2) as F.
    injection F as F1 F2. rewrite F1, F2. split; reflexivity.
  - destruct (execute_appends_one_record env wid window analysis s2) as [Eh Ej].
    rewrite Hd in Eh, Ej.
    assert (Ex : exec (ActionExecutor.execute env wid window analysis ;;; ret tt) s2
                 = exec (ActionExecutor.execute env wid window analysis) s2).
    { rewrite exec_bind.
      destruct (outcome (ActionExecutor.execute env wid window analysis) s2); reflexivity. }
    destruct (outcome (ActionExecutor.execute env wid window analysis ;;; ret tt) s2).
    + pose proof (update_stuck_count_keeps_logs wid analysis
                    (exec (ActionExecutor.execute env wid window analysis ;;; ret tt) s2))
        as F.
      pose proof (f_equal fst F) as F1. pose proof (f_equal snd F) as F2.
      cbn [fst snd] in F1, F2. rewrite F1, F2, Ex, Eh, Ej.
      split; reflexivity.
    + rewrite Ex, Eh, Ej. split; reflexivity.
Qed.

Lemma only_actions_witness :
  let env := Scenario.steady (Scenario.every 400) Scenario.prompt_pane
                             (LLMRaises "unused") in
  let s := Scenario.fresh_state Scenario.with_key
             [("doc-1", Scenario.worker_at "doc-1" 1 "WORKING" 0)] in
  let quiet := [("status", PStr "working"); ("action", PStr "none");
                ("reasoning", PStr "compiling"); ("confidence", PInt 95)] in
  st_json_log (exec (LLMMonitorDaemon.apply_analysis env "doc-1" 1 quiet) s) = [].
Proof.
  intros env s quiet.
  destruct (only_actions_reach_the_audit_trail
              env "doc-1" 1 quiet (PStr "working") (PStr "none") s eq_refl eq_refl)
    as [H _].
  rewrite H. reflexivity.
Defined.

(** X1: the audit trail is append-only and has one line per executed
    decision.  After [execute] has been called on [n] decisions in turn --
    whatever each call returned or raised -- each log is what it was,
    followed by exactly [n] new records, in the order of the calls and each
    for the worker and with the status and action of its decision. *)
Theorem executed_decisions_are_recorded_in_order
        (env : Env) (ds : list (string * Z * pydict)) (s : State) :
  let s' := execute_each env ds s in
  let expected := map (fun d => (fst (fst d), dict_get (snd d) "status",
                                 dict_get (snd d) "action")) ds in
  exists added_h added_j,
    st_decisions_log s' = st_decisions_log s ++ added_h /\
    st_json_log s' = st_json_log s ++ added_j /\
    map (fun r => (h_worker r, h_status r, h_action r)) added_h = expected /\
    map (fun r => (d_worker r, d_status r, d_action r)) added_j = expected.
Proof.
  revert s. induction ds as [ | [[wid window] analysis] rest IH]; intros s s' expected.
  - exists [], []. subst s'. simpl. rewrite !app_nil_r. repeat split; reflexivity.
  - destruct (execute_appends_one_record env wid window analysis s) as [Eh Ej].
    destruct (IH (exec (ActionExecutor.execute env wid window analysis) s))
      as (added_h & added_j & Hh & Hj & Mh & Mj).
    exists (ActionExecutor.human_line
              (ActionExecutor.make_decision (clock env (st_tick s)) wid analysis)
            :: added_h),
           (ActionExecutor.make_decision (clock env (st_tick s)) wid analysis :: added_j).
    subst s' expected. simpl.
    rewrite Hh, Hj, Eh, Ej, <- !app_assoc. simpl.
    rewrite Mh, Mj. repeat split; reflexivity.
Qed.
